(** * Screenshot tools of firefox-devtools-mcp: a shallow embedding

    The development follows [src/tools/screenshot.ts].  JavaScript values
    are embedded as a small tagged type, strings as lists of UTF-16 code
    units, the asynchronous handlers as computations over an explicit
    world (the files on disk and the log of calls that left the module),
    with exceptions as a second kind of completion. *)

From Stdlib Require Import NArith ZArith QArith Qround List Lia.
From Stdlib Require Import String Ascii DecimalString.
From Stdlib.Strings Require Import Byte.
From stdpp Require Import gmap.
Import ListNotations.

Local Open Scope N_scope.
Local Open Scope list_scope.

(* ===================================================================== *)
(** ** JavaScript strings, numbers and values *)
(* ===================================================================== *)

(** A JavaScript string is a sequence of UTF-16 code units; [.length]
    counts code units. *)
Abbreviation js_string := (list N).

Module JS.

(** An ASCII literal of the source, as code units. *)
Definition lit (s : string) : js_string :=
  map N_of_ascii (list_ascii_of_string s).

(** The line feed written [\n] in the template literals. *)
Definition LF : js_string := [10].

(** The camera emoji U+1F4F8 that opens every success message: a
    surrogate pair in UTF-16. *)
Definition camera : js_string := [0xD83D; 0xDCF8].

(** [s.length] *)
Definition length (s : js_string) : N := N.of_nat (List.length s).

(** [s.slice(start, end)] for non-negative integer arguments: the code
    units from [min start len] up to, not including, [min end len]. *)
Definition slice (s : js_string) (start end_ : N) : js_string :=
  firstn (N.to_nat (end_ - start)) (skipn (N.to_nat start) s).

(** [Math.round(x)]: the integer nearest to [x], ties towards +infinity.
    The argument [length / 1024] of the source is a dyadic rational that
    a double represents exactly, so the rational model is exact. *)
Definition Math_round (x : Q) : Z := Qfloor (x + (1 # 2)).

(** [String(n)] for an integral number, as a template literal converts it. *)
Definition Number_toString (n : Z) : js_string :=
  lit (NilZero.string_of_int (Z.to_int n)).

(** [s.includes(t)]: [t] occurs in [s] as a run of consecutive code units. *)
Fixpoint starts_with (t s : js_string) : bool :=
  match t, s with
  | [], _ => true
  | _ :: _, [] => false
  | a :: t', b :: s' => (a =? b) && starts_with t' s'
  end.

Fixpoint includes (s t : js_string) : bool :=
  starts_with t s ||
  match s with
  | [] => false
  | _ :: s' => includes s' t
  end.

(** The runtime values a handler can meet: what JSON arguments and the
    collaborators' results are made of.  Numbers are the integral ones;
    an object is its list of own properties. *)
#[warnings="-register-all"]
Inductive JsValue : Type :=
| JsUndefined
| JsNull
| JsBoolean (b : bool)
| JsNumber (n : Z)
| JsString (s : js_string)
| JsObject (props : list (js_string * JsValue)).

(** ToBoolean, the test behind [if (v)], [!v] and [v || w]. *)
Definition to_boolean (v : JsValue) : bool :=
  match v with
  | JsUndefined | JsNull => false
  | JsBoolean b => b
  | JsNumber n => negb (n =? 0)%Z
  | JsString s => negb (length s =? 0)
  | JsObject _ => true
  end.

Inductive JsType : Type :=
| TUndefined | TObject | TBoolean | TNumber | TString.

(** [typeof v] *)
Definition typeof (v : JsValue) : JsType :=
  match v with
  | JsUndefined => TUndefined
  | JsNull => TObject
  | JsBoolean _ => TBoolean
  | JsNumber _ => TNumber
  | JsString _ => TString
  | JsObject _ => TObject
  end.

Definition JsType_eqb (a b : JsType) : bool :=
  match a, b with
  | TUndefined, TUndefined | TObject, TObject | TBoolean, TBoolean
  | TNumber, TNumber | TString, TString => true
  | _, _ => false
  end.

(** The integers that a number holds exactly and that print as plain
    decimal digits: below [2^53] in absolute value. *)
Definition safe_integer (n : Z) : bool := (Z.abs n <? 2 ^ 53)%Z.

(** ToString where the conversion cannot throw and does not depend on
    the engine's formatting of large numbers: of [undefined], [null], a
    boolean, a string, a safe integer, and an object that inherits
    [toString].  [template_text] below is the conversion in full. *)
Definition ToString (v : JsValue) : js_string :=
  match v with
  | JsUndefined => lit "undefined"
  | JsNull => lit "null"
  | JsBoolean true => lit "true"
  | JsBoolean false => lit "false"
  | JsNumber n => Number_toString n
  | JsString s => s
  | JsObject _ => lit "[object Object]"
  end.

(** Own-property lookup in an object's property list. *)
Fixpoint lookup_prop (k : js_string) (props : list (js_string * JsValue))
  : JsValue :=
  match props with
  | [] => JsUndefined
  | (k', v) :: rest =>
      if decide (k' = k) then v else lookup_prop k rest
  end.

(** Whether an object has an own property [k], whatever its value. *)
Definition has_own_property (k : js_string)
    (props : list (js_string * JsValue)) : bool :=
  existsb (fun kv => bool_decide (fst kv = k)) props.

(** [v.k] on a value that admits property access: a primitive that is
    neither [null] nor [undefined] has none of the properties read here. *)
Definition Get (v : JsValue) (k : js_string) : JsValue :=
  match v with
  | JsObject props => lookup_prop k props
  | _ => JsUndefined
  end.

(** [v || w] *)
Definition or_else (v w : JsValue) : JsValue :=
  if to_boolean v then v else w.

(** An [Error] object; the handlers read and build its [message] only. *)
Record Error : Type := new_Error { message : js_string }.

End JS.
Export JS.

(* ===================================================================== *)
(** ** Node's Buffer: the base64 codec *)
(* ===================================================================== *)

Module Buffer.

(** A byte of a Buffer, from the low eight bits of a number. *)
Definition byte_of_N (n : N) : byte :=
  match Byte.of_N (N.land n 0xFF) with
  | Some b => b
  | None => x00
  end.

(** The base64 alphabet [A-Za-z0-9+/]: the code unit of a sextet. *)
Definition base64_char (v : N) : N :=
  if v <? 26 then 65 + v
  else if v <? 52 then 97 + (v - 26)
  else if v <? 62 then 48 + (v - 52)
  else if v =? 62 then 43
  else 47.

(** The padding character [=]. *)
Definition pad : N := 61.

(** [buf.toString('base64')]: three bytes give four characters; a last
    group of one or two bytes is padded with [=]. *)
Fixpoint toString_base64 (buf : list byte) : js_string :=
  match buf with
  | [] => []
  | [a] =>
      let a := Byte.to_N a in
      [ base64_char (N.shiftr a 2);
        base64_char (N.shiftl (N.land a 0x03) 4);
        pad; pad ]
  | [a; b] =>
      let a := Byte.to_N a in
      let b := Byte.to_N b in
      [ base64_char (N.shiftr a 2);
        base64_char (N.lor (N.shiftl (N.land a 0x03) 4) (N.shiftr b 4));
        base64_char (N.shiftl (N.land b 0x0F) 2);
        pad ]
  | a :: b :: c :: rest =>
      let a := Byte.to_N a in
      let b := Byte.to_N b in
      let c := Byte.to_N c in
      base64_char (N.shiftr a 2)
      :: base64_char (N.lor (N.shiftl (N.land a 0x03) 4) (N.shiftr b 4))
      :: base64_char (N.lor (N.shiftl (N.land b 0x0F) 2) (N.shiftr c 6))
      :: base64_char (N.land c 0x3F)
      :: toString_base64 rest
  end.

(** The decoder's table: the sextet of a character of the standard or of
    the URL-safe alphabet, [None] for any other code unit. *)
Definition unbase64 (c : N) : option N :=
  if (65 <=? c) && (c <=? 90) then Some (c - 65)
  else if (97 <=? c) && (c <=? 122) then Some (c - 97 + 26)
  else if (48 <=? c) && (c <=? 57) then Some (c - 48 + 52)
  else if (c =? 43) || (c =? 45) then Some 62
  else if (c =? 47) || (c =? 95) then Some 63
  else None.

(** Decoding is lenient, as Node documents it: code units outside the
    alphabet (white space, for one) are skipped, the URL-safe alphabet
    is accepted, padding is optional, and decoding stops at the first
    padding character. *)
Fixpoint sextets (s : js_string) : list N :=
  match s with
  | [] => []
  | c :: rest =>
      match unbase64 c with
      | Some v => v :: sextets rest
      | None => if c =? pad then [] else sextets rest
      end
  end.

(** Bytes are written as soon as their bits are complete: four sextets
    give three bytes, a trailing pair one byte, a trailing triple two. *)
Fixpoint bytes_of_sextets (l : list N) : list byte :=
  match l with
  | a :: b :: c :: d :: rest =>
      byte_of_N (N.lor (N.shiftl (N.land a 0x3F) 2) (N.shiftr (N.land b 0x30) 4))
      :: byte_of_N (N.lor (N.shiftl (N.land b 0x0F) 4) (N.shiftr (N.land c 0x3C) 2))
      :: byte_of_N (N.lor (N.shiftl (N.land c 0x03) 6) (N.land d 0x3F))
      :: bytes_of_sextets rest
  | [a; b; c] =>
      [ byte_of_N (N.lor (N.shiftl (N.land a 0x3F) 2) (N.shiftr (N.land b 0x30) 4));
        byte_of_N (N.lor (N.shiftl (N.land b 0x0F) 4) (N.shiftr (N.land c 0x3C) 2)) ]
  | [a; b] =>
      [ byte_of_N (N.lor (N.shiftl (N.land a 0x3F) 2) (N.shiftr (N.land b 0x30) 4)) ]
  | _ => []
  end.

(** [Buffer.from(s, 'base64')] *)
Definition from_base64 (s : js_string) : list byte :=
  bytes_of_sextets (sextets s).

End Buffer.

(* ===================================================================== *)
(** ** Completions, the world, and the computations of a handler *)
(* ===================================================================== *)

(** How the evaluation of a piece of code ends: with a value, or with a
    thrown error (for an awaited promise: fulfilled, or rejected). *)
Inductive Completion (A : Type) : Type :=
| Normal (a : A)
| Throw (e : Error).
Arguments Normal {A} a.
Arguments Throw {A} e.

(** The calls that leave the module. *)
Inductive Event : Type :=
| ImportIndex
| GetFirefox
| TakeScreenshotPage
| TakeScreenshotByUid (uid : js_string)
| WriteFile (path : js_string) (data : list byte).

(** What a call can change or observe outside the handler: the content
    of the files written so far, and the calls made, latest first. *)
Record World : Type := mkWorld {
  files : gmap js_string (list byte);
  calls : list Event
}.

Definition record_call (ev : Event) (w : World) : World :=
  {| files := files w; calls := ev :: calls w |}.

(** A computation runs in a world and ends with a completion. *)
Definition M (A : Type) : Type := World -> Completion A * World.

#[export] Instance M_ret : MRet M := fun A a w => (Normal a, w).

#[export] Instance M_bind : MBind M := fun A B k m w =>
  match m w with
  | (Normal a, w') => k a w'
  | (Throw e, w') => (Throw e, w')
  end.

(** [throw e] *)
Definition throw {A : Type} (e : Error) : M A := fun w => (Throw e, w).

(** [try { body } catch (error) { handler }] *)
Definition try_catch {A : Type} (body : M A) (handler : Error -> M A) : M A :=
  fun w =>
    match body w with
    | (Normal a, w') => (Normal a, w')
    | (Throw e, w') => handler e w'
    end.

(** A call whose completion the environment decides; it is logged. *)
Definition perform {A : Type} (ev : Event) (r : Completion A) : M A :=
  fun w => (r, record_call ev w).

(** A library call that touches nothing outside. *)
Definition complete {A : Type} (r : Completion A) : M A :=
  fun w => (r, w).

(** The browser-automation collaborator, as the handlers use it. *)
Record Firefox : Type := {
  takeScreenshotPage : Completion JsValue;
  takeScreenshotByUid : js_string -> Completion JsValue
}.

(** The module [../index.js] that the handlers import dynamically. *)
Record IndexModule : Type := {
  getFirefox : Completion Firefox
}.

(** Everything outside the module that decides how a call ends:
    the dynamic import, [path.resolve] (which depends on the working
    directory and rejects a non-string), whether a write fails, and what
    a failed write leaves of the file: nothing touched ([None], as when
    the file cannot be opened) or some content ([Some], as when the file
    was opened, hence truncated, and the disk filled up).  The last
    field is the text the engine prints for an integer beyond the safe
    ones (shortest digits that read back, exponent form from [1e21]),
    which is not computed here. *)
Record Env : Type := {
  import_index : Completion IndexModule;
  resolve : JsValue -> Completion js_string;
  writeFile_refused : js_string -> list byte -> option Error;
  refused_write_leaves : js_string -> list byte -> option (list byte);
  engine_number_text : Z -> js_string
}.

(** The files after a failed write of [data] at [path]. *)
Definition after_refused_write (env : Env) (path : js_string)
    (data : list byte) (fs : gmap js_string (list byte))
  : gmap js_string (list byte) :=
  match refused_write_leaves env path data with
  | Some partial => <[path := partial]> fs
  | None => fs
  end.

(** The [TypeError] of converting an object that has no usable
    [toString] or [valueOf] to a string. *)
Definition TypeError_to_primitive : Error :=
  new_Error (lit "Cannot convert object to primitive value").

(** [`${v}`]: ToString as a template literal applies it.  An object is
    converted by its [toString]: the inherited one gives
    "[object Object]"; an own property of that name hides it, holds no
    function in a value made of data, and leaves only [valueOf], which
    gives no primitive: the conversion throws. *)
Definition template_text (env : Env) (v : JsValue) : Completion js_string :=
  match v with
  | JsObject props =>
      if has_own_property (lit "toString") props
      then Throw TypeError_to_primitive
      else Normal (ToString v)
  | JsNumber n =>
      Normal (if safe_integer n then ToString v else engine_number_text env n)
  | _ => Normal (ToString v)
  end.

(** Modelled from the spec: the response helpers ([successResponse],
    [errorResponse] of utils/response-helpers) are not among the sources;
    the envelope is "a tagged success/error value" that "carries either a
    human-readable message [...] or an error description". *)
Inductive McpToolResponse : Type :=
| successResponse (text : js_string)
| errorResponse (error : Error).

(** The two constants of [TOKEN_LIMITS] that this module reads; their
    values are set in utils/response-helpers. *)
Record TokenLimits : Type := {
  MAX_SCREENSHOT_CHARS : N;
  WARNING_THRESHOLD_CHARS : N
}.

(** The [TypeError] of destructuring [null] or [undefined]. *)
Definition TypeError_destructure (prop : string) (v : JsValue) : Error :=
  new_Error (lit "Cannot destructure property '" ++ lit prop
             ++ lit "' of 'args' as it is " ++ ToString v ++ lit ".").

(** The start of [const { ... } = v]: the value must admit property
    access. *)
Definition destructure (first_prop : string) (v : JsValue) : M JsValue :=
  match v with
  | JsUndefined | JsNull => throw (TypeError_destructure first_prop v)
  | _ => mret v
  end.

(** [!v || typeof v !== 'string'] *)
Definition not_a_nonempty_string (v : JsValue) : bool :=
  negb (to_boolean v) || negb (JsType_eqb (typeof v) TString).

Section Screenshot.

Variable TOKEN_LIMITS : TokenLimits.
Variable handleUidError : Error -> js_string -> Error.
Variable env : Env.

(** [await writeFile(path, data)]: the whole file is replaced, or the
    write fails and the file is as the failure left it. *)
Definition writeFile (path : js_string) (data : list byte) : M unit :=
  fun w =>
    let w1 := record_call (WriteFile path data) w in
    match writeFile_refused env path data with
    | Some e => (Throw e, {| files := after_refused_write env path data
                                        (files w1);
                             calls := calls w1 |})
    | None => (Normal tt, {| files := <[path := data]> (files w1);
                             calls := calls w1 |})
    end.

(** [Math.round(base64Png.length / 1024)] *)
Definition sizeKB_of (base64Png : js_string) : Z :=
  Math_round (inject_Z (Z.of_N (length base64Png)) / inject_Z 1024).

(** Build screenshot response with size safeguards or save to file. *)
Definition buildScreenshotResponse
    (base64Png label : js_string) (filePath : JsValue) : M McpToolResponse :=
  let sizeKB := sizeKB_of base64Png in
  if to_boolean filePath then
    try_catch
      (absolutePath ← complete (resolve env filePath);
       let buffer := Buffer.from_base64 base64Png in
       _ ← writeFile absolutePath buffer;
       mret (successResponse
               (camera ++ lit " " ++ label ++ lit " ("
                ++ Number_toString sizeKB ++ lit "KB) saved to "
                ++ absolutePath)))
      (fun error =>
         text ← complete (template_text env filePath);
         throw (new_Error
                  (lit "Failed to save screenshot to " ++ text
                   ++ lit ": " ++ message error)))
  else if MAX_SCREENSHOT_CHARS TOKEN_LIMITS <? length base64Png then
    let truncatedData :=
      slice base64Png 0 (MAX_SCREENSHOT_CHARS TOKEN_LIMITS) in
    mret (successResponse
            (camera ++ lit " " ++ label ++ lit " ("
             ++ Number_toString sizeKB ++ lit "KB) [truncated]" ++ LF
             ++ truncatedData))
  else
    let warn :=
      if WARNING_THRESHOLD_CHARS TOKEN_LIMITS <? length base64Png
      then lit " [large]" else [] in
    mret (successResponse
            (camera ++ lit " " ++ label ++ lit " ("
             ++ Number_toString sizeKB ++ lit "KB)" ++ warn ++ LF
             ++ base64Png)).

(** The [try] block of [handleScreenshotPage]. *)
Definition handleScreenshotPage_try (args : JsValue) : M McpToolResponse :=
  obj ← destructure "filePath" (or_else args (JsObject []));
  let filePath := Get obj (lit "filePath") in
  index ← perform ImportIndex (import_index env);
  firefox ← perform GetFirefox (getFirefox index);
  base64Png ← perform TakeScreenshotPage (takeScreenshotPage firefox);
  if not_a_nonempty_string base64Png then
    throw (new_Error (lit "Invalid screenshot data"))
  else
    buildScreenshotResponse (ToString base64Png) (lit "page") filePath.

Definition handleScreenshotPage (args : JsValue) : M McpToolResponse :=
  try_catch (handleScreenshotPage_try args)
            (fun error => mret (errorResponse error)).

(** The inner [try] block of [handleScreenshotByUid], after the handle
    was obtained. *)
Definition handleScreenshotByUid_capture
    (firefox : Firefox) (uid : js_string) (filePath : JsValue)
  : M McpToolResponse :=
  try_catch
    (base64Png ← perform (TakeScreenshotByUid uid)
                         (takeScreenshotByUid firefox uid);
     if not_a_nonempty_string base64Png then
       throw (new_Error (lit "Invalid screenshot data"))
     else
       buildScreenshotResponse (ToString base64Png) uid filePath)
    (fun error => throw (handleUidError error uid)).

(** The outer [try] block of [handleScreenshotByUid]. *)
Definition handleScreenshotByUid_try (args : JsValue) : M McpToolResponse :=
  obj ← destructure "uid" args;
  let uid := Get obj (lit "uid") in
  let filePath := Get obj (lit "filePath") in
  if not_a_nonempty_string uid then
    throw (new_Error (lit "uid required"))
  else
    index ← perform ImportIndex (import_index env);
    firefox ← perform GetFirefox (getFirefox index);
    handleScreenshotByUid_capture firefox (ToString uid) filePath.

Definition handleScreenshotByUid (args : JsValue) : M McpToolResponse :=
  try_catch (handleScreenshotByUid_try args)
            (fun error => mret (errorResponse error)).

End Screenshot.

(** What the [catch] block of the builder throws for the failure
    [cause]: the error that names the file path and the cause, or, when
    the file path cannot be put into the message, the error of that
    conversion. *)
Definition save_failure (env : Env) (filePath : JsValue) (cause : Error)
  : Error :=
  match template_text env filePath with
  | Normal text =>
      new_Error (lit "Failed to save screenshot to " ++ text
                 ++ lit ": " ++ message cause)
  | Throw conversion_error => conversion_error
  end.

(** The world once the module was imported and the handle obtained. *)
Definition with_handle (w : World) : World :=
  record_call GetFirefox (record_call ImportIndex w).

(* ===================================================================== *)
(** ** The UID error translation, as far as the specification fixes it *)
(* ===================================================================== *)

(** Modelled from the spec: [handleUidError] (utils/uid-helpers) is not
    among the sources.  It is "a function (error, uid) -> Error that
    rewrites lookup-related failures into UID-contextualized messages":
    whatever counts as a lookup failure, its translation for [uid] has a
    message in which [uid] occurs. *)
Definition references_uid
    (handleUidError : Error -> js_string -> Error)
    (lookup_failure : Error -> bool) : Prop :=
  forall (e : Error) (uid : js_string),
    lookup_failure e = true ->
    includes (message (handleUidError e uid)) uid = true.

(* ===================================================================== *)
(** ** A canonical base64 string *)
(* ===================================================================== *)

(** The strings an encoder produces: standard alphabet, full padding,
    no stray bits. *)
Definition canonical_base64 (s : js_string) : Prop :=
  exists buf : list byte, s = Buffer.toString_base64 buf.

(* ===================================================================== *)
(** ** Exhaustive checks over sextets and bytes *)
(* ===================================================================== *)

Definition below (n : nat) : list N := map N.of_nat (seq 0 n).

Definition all_below (n : nat) (P : N -> bool) : bool := forallb P (below n).

Definition all_byte_pairs (P : N -> N -> bool) : bool :=
  all_below 256 (fun a => all_below 256 (P a)).

(** The four sextets of a group of bytes [a b c], and the three bytes of
    a group of sextets [p q r s], as the codec computes them. *)
Definition sx1 (a : N) : N := N.shiftr a 2.
Definition sx2 (a b : N) : N :=
  N.lor (N.shiftl (N.land a 0x03) 4) (N.shiftr b 4).
Definition sx3 (b c : N) : N :=
  N.lor (N.shiftl (N.land b 0x0F) 2) (N.shiftr c 6).
Definition sx4 (c : N) : N := N.land c 0x3F.
Definition oc1 (p q : N) : N :=
  N.lor (N.shiftl (N.land p 0x3F) 2) (N.shiftr (N.land q 0x30) 4).
Definition oc3 (r s : N) : N :=
  N.lor (N.shiftl (N.land r 0x03) 6) (N.land s 0x3F).

(* ===================================================================== *)
(** ** A concrete environment, for running the handlers *)
(* ===================================================================== *)

Module Sample.

Definition limits : TokenLimits :=
  {| MAX_SCREENSHOT_CHARS := 8; WARNING_THRESHOLD_CHARS := 4 |}.

(** The first bytes of a PNG file, base64-encoded. *)
Definition png : js_string := lit "iVBORw0KGgo=".

(** Element [e1] is on the page, [e0] yields an empty capture, any other
    UID is unknown. *)
Definition firefox : Firefox :=
  {| takeScreenshotPage := Normal (JsString png);
     takeScreenshotByUid := fun uid =>
       if decide (uid = lit "e1") then Normal (JsString png)
       else if decide (uid = lit "e0") then Normal (JsString [])
       else Throw (new_Error (lit "element not found")) |}.

(** The environment of a browser: paths are resolved against the working
    directory [/work]; nothing can be opened for writing under
    [/readonly].  No number beyond the safe integers occurs in the
    samples. *)
Definition env_of (fx : Firefox) : Env :=
  {| import_index := Normal {| getFirefox := Normal fx |};
     resolve := fun v =>
       match v with
       | JsString s =>
           if starts_with (lit "/") s then Normal s
           else Normal (lit "/work/" ++ s)
       | _ => Throw (new_Error (lit "The paths[0] argument must be of type string"))
       end;
     writeFile_refused := fun path _ =>
       if starts_with (lit "/readonly/") path
       then Some (new_Error (lit "EACCES: permission denied, open '"
                             ++ path ++ lit "'"))
       else None;
     refused_write_leaves := fun _ _ => None;
     engine_number_text := fun _ => lit "Infinity" |}.

Definition env : Env := env_of firefox.

(** A browser that captures nothing. *)
Definition blank_firefox : Firefox :=
  {| takeScreenshotPage := Normal (JsString []);
     takeScreenshotByUid := fun _ => Normal JsNull |}.

Definition lookup_failure (e : Error) : bool :=
  includes (message e) (lit "not found").

(** Modelled from the spec: one translation that "maps low-level lookup
    failures, e.g. element not found, into a more actionable message
    referencing the UID" and leaves other errors as they are. *)
Definition handleUidError (e : Error) (uid : js_string) : Error :=
  if lookup_failure e
  then new_Error (lit "Element with UID " ++ uid
                  ++ lit " not found: take a new snapshot and retry")
  else e.

(** Nothing written, nothing called. *)
Definition world0 : World := {| files := ∅; calls := [] |}.

(** [{ uid, filePath }] *)
Definition request (uid filePath : JsValue) : JsValue :=
  JsObject [(lit "uid", uid); (lit "filePath", filePath)].

End Sample.

(** What a run of a handler that captures with [capture] and was given
    [filePath] can have done between the worlds [w] and [w'], when it
    returned [r]: either it made some first calls of import, handle and
    capture, in this order, and wrote nothing; or it made all three,
    obtained a non-empty capture, and asked once for the decoded capture
    to be written at the resolved path, which failed (an error envelope,
    that one file as the failure left it) or was done (a success
    envelope, that one file replaced). *)
Definition run_shape
    (env : Env) (capture : Event) (captured : Firefox -> Completion JsValue)
    (filePath : JsValue) (w : World) (r : McpToolResponse) (w' : World)
  : Prop :=
  exists new,
    calls w' = new ++ calls w
    /\ ((rev new `prefix_of` [ImportIndex; GetFirefox; capture]
         /\ files w' = files w)
        \/ (exists index firefox base64Png absolutePath,
              import_index env = Normal index
              /\ getFirefox index = Normal firefox
              /\ captured firefox = Normal (JsString base64Png)
              /\ base64Png <> []
              /\ to_boolean filePath = true
              /\ resolve env filePath = Normal absolutePath
              /\ new = [WriteFile absolutePath (Buffer.from_base64 base64Png);
                        capture; GetFirefox; ImportIndex]
              /\ ((exists e,
                     r = errorResponse e
                     /\ files w'
                        = after_refused_write env absolutePath
                            (Buffer.from_base64 base64Png) (files w)
                     /\ writeFile_refused env absolutePath
                          (Buffer.from_base64 base64Png) <> None)
                  \/ (exists text,
                        r = successResponse text
                        /\ files w'
                           = <[absolutePath := Buffer.from_base64 base64Png]>
                               (files w)
                        /\ writeFile_refused env absolutePath
                             (Buffer.from_base64 base64Png) = None)))).

(** Environments in which something is down. *)
Module Outage.

(** No browser to talk to.  The sample translation would take this
    message for a lookup failure, were it asked. *)
Definition connection_lost : Error :=
  new_Error (lit "Firefox not found on this machine").

(** A browser that fails every capture. *)
Definition crashed_firefox : Firefox :=
  {| takeScreenshotPage := Throw connection_lost;
     takeScreenshotByUid := fun _ => Throw connection_lost |}.

(** The module loads, no handle can be obtained. *)
Definition no_handle : Env :=
  {| import_index := Normal {| getFirefox := Throw connection_lost |};
     resolve := resolve Sample.env;
     writeFile_refused := writeFile_refused Sample.env;
     refused_write_leaves := refused_write_leaves Sample.env;
     engine_number_text := engine_number_text Sample.env |}.

(** The disk is full: every file can be opened, which empties it, and
    no byte can be written. *)
Definition disk_full : Env :=
  {| import_index := import_index Sample.env;
     resolve := resolve Sample.env;
     writeFile_refused := fun _ _ =>
       Some (new_Error (lit "ENOSPC: no space left on device, write"));
     refused_write_leaves := fun _ _ => Some [];
     engine_number_text := engine_number_text Sample.env |}.

End Outage.

(* ===================================================================== *)
(** ** Facts about strings and numbers *)
(* ===================================================================== *)

Section StringFacts.

Lemma starts_with_app (t post : js_string) : starts_with t (t ++ post) = true.
Proof.
  induction t as [|a t IH]; [reflexivity|].
  cbn [starts_with app]. now rewrite N.eqb_refl, IH.
Qed.

Lemma includes_app (pre t post : js_string) :
  includes (pre ++ t ++ post) t = true.
Proof.
  induction pre as [|a pre IH].
  - destruct (t ++ post) eqn:E; cbn [app includes];
      rewrite <- E, starts_with_app; reflexivity.
  - cbn [app includes]. rewrite IH. apply orb_true_r.
Qed.

Lemma slice_from_0 (s : js_string) (n : N) :
  slice s 0 n = firstn (N.to_nat n) s.
Proof. unfold slice. now rewrite N.sub_0_r. Qed.

(** Below the length of the string, [slice(0, n)] has exactly [n] code
    units and the string continues it. *)
Lemma slice_prefix (s : js_string) (n : N) :
  n <= length s ->
  length (slice s 0 n) = n /\ exists rest, s = slice s 0 n ++ rest.
Proof.
  unfold length. intros Hn. rewrite slice_from_0. split.
  - rewrite length_firstn. lia.
  - exists (skipn (N.to_nat n) s). symmetry. apply firstn_skipn.
Qed.

(** [Math.round(n / 1024)] in integer arithmetic. *)
Lemma Math_round_div_1024 (n : Z) :
  Math_round (inject_Z n / inject_Z 1024) = ((n + 512) / 1024)%Z.
Proof.
  unfold Math_round.
  rewrite (Qfloor_comp _ (inject_Z (n + 512) / inject_Z 1024)).
  - symmetry. apply Zdiv_Qdiv.
  - rewrite inject_Z_plus. field.
Qed.

(** The size annotation in integer arithmetic: kilobytes, rounded to the
    nearest, halves up. *)
Lemma sizeKB_of_div (s : js_string) :
  sizeKB_of s = ((Z.of_N (length s) + 512) / 1024)%Z.
Proof. apply Math_round_div_1024. Qed.

Example sizeKB_rounds_half_up :
  sizeKB_of (repeat 65 511) = 0%Z /\ sizeKB_of (repeat 65 512) = 1%Z
  /\ sizeKB_of (repeat 65 1535) = 1%Z /\ sizeKB_of (repeat 65 1536) = 2%Z.
Proof. repeat split; vm_compute; reflexivity. Qed.

End StringFacts.

(* ===================================================================== *)
(** ** The base64 codec: decoding undoes encoding *)
(* ===================================================================== *)

Section Base64Facts.

Import Buffer.

Lemma all_below_sound (n : nat) (P : N -> bool) :
  all_below n P = true -> forall x, x < N.of_nat n -> P x = true.
Proof.
  unfold all_below, below. intros H x Hx.
  rewrite forallb_forall in H. apply H.
  apply in_map_iff. exists (N.to_nat x). split; [apply N2Nat.id|].
  apply in_seq. lia.
Qed.

Lemma all_byte_pairs_sound (P : N -> N -> bool) :
  all_byte_pairs P = true ->
  forall a b : byte, P (Byte.to_N a) (Byte.to_N b) = true.
Proof.
  intros H a b.
  pose proof (Byte.to_N_bounded a). pose proof (Byte.to_N_bounded b).
  apply (all_below_sound 256 (P (Byte.to_N a))); [|lia].
  apply (all_below_sound 256 (fun a => all_below 256 (P a))); [exact H|lia].
Qed.

Lemma unbase64_base64_char (v : N) :
  v < 64 -> unbase64 (base64_char v) = Some v.
Proof.
  intros Hv.
  pose proof (all_below_sound 64
    (fun v => match unbase64 (base64_char v) with
              | Some u => u =? v
              | None => false
              end) eq_refl v Hv) as H.
  cbv beta in H. destruct (unbase64 (base64_char v)); [|discriminate].
  apply N.eqb_eq in H. congruence.
Qed.

Lemma byte_of_to_N (x : byte) : byte_of_N (Byte.to_N x) = x.
Proof.
  unfold byte_of_N. pose proof (Byte.to_N_bounded x) as Hx.
  assert (N.land (Byte.to_N x) 0xFF = Byte.to_N x) as ->.
  { apply N.eqb_eq.
    apply (all_below_sound 256 (fun n => N.land n 0xFF =? n) eq_refl). lia. }
  now rewrite Byte.of_to_N.
Qed.

(** The first two sextets of a group carry the first byte, and the low
    four bits of the second sextet are the high four bits of the second
    byte. *)
Lemma first_octet (a b : byte) :
  sx1 (Byte.to_N a) < 64 /\ sx2 (Byte.to_N a) (Byte.to_N b) < 64 /\
  oc1 (sx1 (Byte.to_N a)) (sx2 (Byte.to_N a) (Byte.to_N b)) = Byte.to_N a /\
  N.land (sx2 (Byte.to_N a) (Byte.to_N b)) 0x0F = N.shiftr (Byte.to_N b) 4.
Proof.
  pose proof (all_byte_pairs_sound
    (fun a b => (sx1 a <? 64) && (sx2 a b <? 64)
                && (oc1 (sx1 a) (sx2 a b) =? a)
                && (N.land (sx2 a b) 0x0F =? N.shiftr b 4))%bool
    ltac:(vm_compute; reflexivity) a b) as H.
  cbv beta in H.
  apply andb_prop in H as [H H4]. apply andb_prop in H as [H H3].
  apply andb_prop in H as [H1 H2].
  apply N.ltb_lt in H1, H2. apply N.eqb_eq in H3, H4. auto.
Qed.

(** The last two sextets of a group carry the rest of the second byte
    and the third byte. *)
Lemma later_octets (b c : byte) :
  sx3 (Byte.to_N b) (Byte.to_N c) < 64 /\ sx4 (Byte.to_N c) < 64 /\
  N.lor (N.shiftl (N.shiftr (Byte.to_N b) 4) 4)
        (N.shiftr (N.land (sx3 (Byte.to_N b) (Byte.to_N c)) 0x3C) 2)
    = Byte.to_N b /\
  oc3 (sx3 (Byte.to_N b) (Byte.to_N c)) (sx4 (Byte.to_N c)) = Byte.to_N c.
Proof.
  pose proof (all_byte_pairs_sound
    (fun b c => (sx3 b c <? 64) && (sx4 c <? 64)
                && (N.lor (N.shiftl (N.shiftr b 4) 4)
                          (N.shiftr (N.land (sx3 b c) 0x3C) 2) =? b)
                && (oc3 (sx3 b c) (sx4 c) =? c))%bool
    ltac:(vm_compute; reflexivity) b c) as H.
  cbv beta in H.
  apply andb_prop in H as [H H4]. apply andb_prop in H as [H H3].
  apply andb_prop in H as [H1 H2].
  apply N.ltb_lt in H1, H2. apply N.eqb_eq in H3, H4. auto.
Qed.

(** Induction over a list three elements at a time, as the encoder
    consumes it. *)
Lemma list_ind3 {A : Type} (P : list A -> Prop) :
  P [] -> (forall a, P [a]) -> (forall a b, P [a; b]) ->
  (forall a b c l, P l -> P (a :: b :: c :: l)) -> forall l, P l.
Proof.
  intros H0 H1 H2 H3.
  fix IH 1. intros [|a [|b [|c l]]];
    [apply H0 | apply H1 | apply H2 | apply H3, IH].
Qed.

Lemma sextets_char (v : N) (rest : js_string) :
  v < 64 -> sextets (base64_char v :: rest) = v :: sextets rest.
Proof. intros Hv. cbn [sextets]. now rewrite unbase64_base64_char. Qed.

Lemma sextets_pad (rest : js_string) : sextets (pad :: rest) = [].
Proof. reflexivity. Qed.

(** [Buffer.from(buf.toString('base64'), 'base64')] is [buf]. *)
Lemma from_toString_base64 (buf : list byte) :
  from_base64 (toString_base64 buf) = buf.
Proof.
  unfold from_base64.
  induction buf as [|a|a b|a b c rest IH] using list_ind3.
  - reflexivity.
  - destruct (first_octet a x00) as (H1 & H2 & H3 & _).
    cbn [toString_base64].
    change (N.shiftr (Byte.to_N a) 2) with (sx1 (Byte.to_N a)).
    replace (N.shiftl (N.land (Byte.to_N a) 3) 4)
      with (sx2 (Byte.to_N a) (Byte.to_N x00)) by apply N.lor_0_r.
    rewrite !sextets_char, sextets_pad by assumption.
    cbn [bytes_of_sextets].
    fold (oc1 (sx1 (Byte.to_N a)) (sx2 (Byte.to_N a) (Byte.to_N x00))).
    now rewrite H3, byte_of_to_N.
  - destruct (first_octet a b) as (H1 & H2 & H3 & H4).
    destruct (later_octets b x00) as (H5 & _ & H6 & _).
    cbn [toString_base64].
    change (N.shiftr (Byte.to_N a) 2) with (sx1 (Byte.to_N a)).
    fold (sx2 (Byte.to_N a) (Byte.to_N b)).
    replace (N.shiftl (N.land (Byte.to_N b) 15) 2)
      with (sx3 (Byte.to_N b) (Byte.to_N x00)) by apply N.lor_0_r.
    rewrite !sextets_char, sextets_pad by assumption.
    cbn [bytes_of_sextets].
    fold (oc1 (sx1 (Byte.to_N a)) (sx2 (Byte.to_N a) (Byte.to_N b))).
    rewrite H3, H4, H6, !byte_of_to_N. reflexivity.
  - destruct (first_octet a b) as (H1 & H2 & H3 & H4).
    destruct (later_octets b c) as (H5 & H6 & H7 & H8).
    cbn [toString_base64].
    change (N.shiftr (Byte.to_N a) 2) with (sx1 (Byte.to_N a)).
    fold (sx2 (Byte.to_N a) (Byte.to_N b)) (sx3 (Byte.to_N b) (Byte.to_N c))
         (sx4 (Byte.to_N c)).
    rewrite !sextets_char by assumption.
    cbn [bytes_of_sextets]. rewrite IH.
    fold (oc1 (sx1 (Byte.to_N a)) (sx2 (Byte.to_N a) (Byte.to_N b))).
    fold (oc3 (sx3 (Byte.to_N b) (Byte.to_N c)) (sx4 (Byte.to_N c))).
    rewrite H3, H4, H7, H8, !byte_of_to_N. reflexivity.
Qed.

(** Re-encoding the decoding of a canonical string gives it back. *)
Lemma toString_from_canonical (s : js_string) :
  canonical_base64 s -> toString_base64 (from_base64 s) = s.
Proof. intros [buf ->]. now rewrite from_toString_base64. Qed.

Example png_signature :
  from_base64 Sample.png = [x89; x50; x4e; x47; x0d; x0a; x1a; x0a]
  /\ toString_base64 [x89; x50; x4e; x47; x0d; x0a; x1a; x0a] = Sample.png.
Proof. split; vm_compute; reflexivity. Qed.

Example decoding_is_lenient :
  from_base64 (lit "QQ==") = [x41]
  /\ from_base64 (lit "QQ") = [x41]
  /\ from_base64 (lit "QR==") = [x41]
  /\ from_base64 (lit "Q Q = = Q Q") = [x41]
  /\ from_base64 (lit "-_8") = from_base64 (lit "+/8=").
Proof. repeat split; vm_compute; reflexivity. Qed.

End Base64Facts.

(* ===================================================================== *)
(** ** The response builder, branch by branch *)
(* ===================================================================== *)

Section BuilderBranches.

Variable limits : TokenLimits.
Variable env : Env.
Variables (base64Png label : js_string) (filePath : JsValue) (w : World).

(** Over the hard maximum, without a file path: the truncated message. *)
Lemma build_truncated :
  to_boolean filePath = false ->
  MAX_SCREENSHOT_CHARS limits < length base64Png ->
  buildScreenshotResponse limits env base64Png label filePath w
  = (Normal (successResponse
               (camera ++ lit " " ++ label ++ lit " ("
                ++ Number_toString (sizeKB_of base64Png)
                ++ lit "KB) [truncated]" ++ LF
                ++ slice base64Png 0 (MAX_SCREENSHOT_CHARS limits))), w).
Proof.
  intros Hfp Hmax. unfold buildScreenshotResponse. rewrite Hfp.
  apply N.ltb_lt in Hmax. rewrite Hmax. reflexivity.
Qed.

(** Up to the hard maximum, without a file path: the whole string, with
    the warning when it is over the threshold. *)
Lemma build_whole :
  to_boolean filePath = false ->
  length base64Png <= MAX_SCREENSHOT_CHARS limits ->
  buildScreenshotResponse limits env base64Png label filePath w
  = (Normal (successResponse
               (camera ++ lit " " ++ label ++ lit " ("
                ++ Number_toString (sizeKB_of base64Png) ++ lit "KB)"
                ++ (if WARNING_THRESHOLD_CHARS limits <? length base64Png
                    then lit " [large]" else [])
                ++ LF ++ base64Png)), w).
Proof.
  intros Hfp Hmax. unfold buildScreenshotResponse. rewrite Hfp.
  apply N.ltb_ge in Hmax. rewrite Hmax. reflexivity.
Qed.

(** With a file path that resolves and a write that goes through. *)
Lemma build_saved (absolutePath : js_string) :
  to_boolean filePath = true ->
  resolve env filePath = Normal absolutePath ->
  writeFile_refused env absolutePath (Buffer.from_base64 base64Png) = None ->
  buildScreenshotResponse limits env base64Png label filePath w
  = (Normal (successResponse
               (camera ++ lit " " ++ label ++ lit " ("
                ++ Number_toString (sizeKB_of base64Png)
                ++ lit "KB) saved to " ++ absolutePath)),
     {| files := <[absolutePath := Buffer.from_base64 base64Png]> (files w);
        calls := WriteFile absolutePath (Buffer.from_base64 base64Png)
                 :: calls w |}).
Proof.
  intros Hfp Hres Hwr. unfold buildScreenshotResponse. rewrite Hfp.
  unfold try_catch, mbind, M_bind, complete, writeFile. rewrite Hres, Hwr.
  reflexivity.
Qed.

(** With a file path that does not resolve. *)
Lemma build_resolve_throws (cause : Error) :
  to_boolean filePath = true ->
  resolve env filePath = Throw cause ->
  buildScreenshotResponse limits env base64Png label filePath w
  = (Throw (save_failure env filePath cause), w).
Proof.
  intros Hfp Hres. unfold buildScreenshotResponse. rewrite Hfp.
  unfold try_catch, mbind, M_bind, complete, save_failure. rewrite Hres.
  destruct (template_text env filePath); reflexivity.
Qed.

(** With a write that fails. *)
Lemma build_write_refused (absolutePath : js_string) (cause : Error) :
  to_boolean filePath = true ->
  resolve env filePath = Normal absolutePath ->
  writeFile_refused env absolutePath (Buffer.from_base64 base64Png)
    = Some cause ->
  buildScreenshotResponse limits env base64Png label filePath w
  = (Throw (save_failure env filePath cause),
     {| files := after_refused_write env absolutePath
                   (Buffer.from_base64 base64Png) (files w);
        calls := WriteFile absolutePath (Buffer.from_base64 base64Png)
                 :: calls w |}).
Proof.
  intros Hfp Hres Hwr. unfold buildScreenshotResponse. rewrite Hfp.
  unfold try_catch, mbind, M_bind, complete, writeFile, save_failure.
  rewrite Hres, Hwr.
  destruct (template_text env filePath); reflexivity.
Qed.

(** Every successful message opens with the label and the size of the
    whole input. *)
Lemma build_success_header (text : js_string) (w' : World) :
  buildScreenshotResponse limits env base64Png label filePath w
    = (Normal (successResponse text), w') ->
  exists rest,
    text = camera ++ lit " " ++ label ++ lit " ("
           ++ Number_toString (sizeKB_of base64Png) ++ lit "KB)" ++ rest.
Proof.
  destruct (to_boolean filePath) eqn:Hfp.
  - destruct (resolve env filePath) as [absolutePath|cause] eqn:Hres.
    + destruct (writeFile_refused env absolutePath
                  (Buffer.from_base64 base64Png)) as [cause|] eqn:Hwr.
      * rewrite (build_write_refused absolutePath cause) by assumption.
        discriminate.
      * rewrite (build_saved absolutePath) by assumption.
        intros [= <- _]. exists (lit " saved to " ++ absolutePath).
        reflexivity.
    + rewrite (build_resolve_throws cause) by assumption. discriminate.
  - destruct (N.lt_ge_cases (MAX_SCREENSHOT_CHARS limits)
                (length base64Png)) as [Hmax|Hmax].
    + rewrite build_truncated by assumption. intros [= <- _].
      exists (lit " [truncated]" ++ LF
              ++ slice base64Png 0 (MAX_SCREENSHOT_CHARS limits)).
      reflexivity.
    + rewrite build_whole by assumption. intros [= <- _].
      eexists. reflexivity.
Qed.

(** A normal completion of the builder is a success envelope. *)
Lemma build_returns_success (r : McpToolResponse) (w' : World) :
  buildScreenshotResponse limits env base64Png label filePath w
    = (Normal r, w') ->
  exists text, r = successResponse text.
Proof.
  unfold buildScreenshotResponse.
  destruct (to_boolean filePath).
  - unfold try_catch, mbind, M_bind, complete, writeFile, throw.
    destruct (resolve env filePath) as [absolutePath|cause];
      [|destruct (template_text env filePath); discriminate].
    destruct (writeFile_refused env absolutePath _);
      [destruct (template_text env filePath); discriminate|].
    intros [= <- _]. eauto.
  - destruct (_ <? _); intros [= <- _]; eauto.
Qed.

End BuilderBranches.

(* ===================================================================== *)
(** ** The response builder: the size safeguards *)
(* ===================================================================== *)

(** C1, as the code has it: for every base64 string strictly longer than
    [MAX_SCREENSHOT_CHARS], [buildScreenshotResponse] without a file path
    returns a success envelope whose message is annotated "[truncated]"
    and whose data is a prefix of the input of exactly
    [MAX_SCREENSHOT_CHARS] code units. *)
Theorem truncated_above_hard_maximum
    (limits : TokenLimits) (env : Env)
    (base64Png label : js_string) (w : World) :
  MAX_SCREENSHOT_CHARS limits < length base64Png ->
  exists data rest,
    buildScreenshotResponse limits env base64Png label JsUndefined w
    = (Normal (successResponse
                 (camera ++ lit " " ++ label ++ lit " ("
                  ++ Number_toString (sizeKB_of base64Png)
                  ++ lit "KB) [truncated]" ++ LF ++ data)), w)
    /\ length data = MAX_SCREENSHOT_CHARS limits
    /\ base64Png = data ++ rest.
Proof.
  intros Hmax.
  destruct (slice_prefix base64Png (MAX_SCREENSHOT_CHARS limits))
    as [Hlen [rest Hrest]]; [lia|].
  exists (slice base64Png 0 (MAX_SCREENSHOT_CHARS limits)), rest.
  split; [|split; assumption].
  now apply build_truncated.
Qed.

Lemma truncated_above_hard_maximum_witness :
  exists data rest,
    buildScreenshotResponse Sample.limits Sample.env
      (lit "AAAAAAAAA") (lit "page") JsUndefined Sample.world0
    = (Normal (successResponse
                 (camera ++ lit " page (0KB) [truncated]" ++ LF ++ data)),
       Sample.world0)
    /\ length data = 8
    /\ lit "AAAAAAAAA" = data ++ rest.
Proof.
  apply (truncated_above_hard_maximum Sample.limits Sample.env
           (lit "AAAAAAAAA") (lit "page") Sample.world0).
  vm_compute. reflexivity.
Defined.

(** C1, as stated, fails at a string of exactly [MAX_SCREENSHOT_CHARS]
    code units: with a maximum of 8 and a warning threshold of 4, eight
    characters come back whole, annotated "[large]", and "[truncated]"
    does not occur in the message. *)
Lemma at_hard_maximum_not_truncated :
  MAX_SCREENSHOT_CHARS Sample.limits <= length (lit "AAAAAAAA")
  /\ buildScreenshotResponse Sample.limits Sample.env
       (lit "AAAAAAAA") (lit "page") JsUndefined Sample.world0
     = (Normal (successResponse
                  (camera ++ lit " page (0KB) [large]" ++ LF
                   ++ lit "AAAAAAAA")), Sample.world0)
  /\ includes (camera ++ lit " page (0KB) [large]" ++ LF ++ lit "AAAAAAAA")
              (lit "[truncated]") = false.
Proof. split; [|split]; vm_compute; congruence. Qed.

(** Whatever the limits are, a string of exactly the hard maximum is
    returned whole. *)
Lemma at_hard_maximum_whole
    (limits : TokenLimits) (env : Env)
    (base64Png label : js_string) (w : World) :
  length base64Png = MAX_SCREENSHOT_CHARS limits ->
  exists annotation,
    buildScreenshotResponse limits env base64Png label JsUndefined w
    = (Normal (successResponse
                 (camera ++ lit " " ++ label ++ lit " ("
                  ++ Number_toString (sizeKB_of base64Png) ++ lit "KB)"
                  ++ annotation ++ LF ++ base64Png)), w)
    /\ (annotation = lit " [large]" \/ annotation = []).
Proof.
  intros Hlen. eexists. split.
  - apply build_whole; [reflexivity | lia].
  - destruct (_ <? _); auto.
Qed.

(** C6: for every base64 string whose length is strictly between
    [WARNING_THRESHOLD_CHARS] and [MAX_SCREENSHOT_CHARS],
    [buildScreenshotResponse] without a file path returns a success
    envelope whose message is annotated "[large]" and ends with the
    whole input. *)
Theorem large_between_thresholds
    (limits : TokenLimits) (env : Env)
    (base64Png label : js_string) (w : World) :
  WARNING_THRESHOLD_CHARS limits < length base64Png ->
  length base64Png < MAX_SCREENSHOT_CHARS limits ->
  buildScreenshotResponse limits env base64Png label JsUndefined w
  = (Normal (successResponse
               (camera ++ lit " " ++ label ++ lit " ("
                ++ Number_toString (sizeKB_of base64Png)
                ++ lit "KB) [large]" ++ LF ++ base64Png)), w).
Proof.
  intros Hwarn Hmax.
  rewrite build_whole; [|reflexivity|lia].
  apply N.ltb_lt in Hwarn. rewrite Hwarn. reflexivity.
Qed.

Lemma large_between_thresholds_witness :
  buildScreenshotResponse Sample.limits Sample.env
    (lit "AAAAAA") (lit "page") JsUndefined Sample.world0
  = (Normal (successResponse
               (camera ++ lit " page (0KB) [large]" ++ LF ++ lit "AAAAAA")),
     Sample.world0).
Proof.
  apply (large_between_thresholds Sample.limits Sample.env
           (lit "AAAAAA") (lit "page") Sample.world0);
    vm_compute; reflexivity.
Defined.

(** C8: an empty string as file path does not take the save-to-file
    branch.  The builder does exactly what it does without a file path:
    it applies the size checks, returns the data inline and leaves the
    world as it was. *)
Theorem empty_filePath_is_inline
    (limits : TokenLimits) (env : Env)
    (base64Png label : js_string) (w : World) :
  buildScreenshotResponse limits env base64Png label (JsString []) w
  = buildScreenshotResponse limits env base64Png label JsUndefined w
  /\ exists annotation data,
       buildScreenshotResponse limits env base64Png label (JsString []) w
       = (Normal (successResponse
                    (camera ++ lit " " ++ label ++ lit " ("
                     ++ Number_toString (sizeKB_of base64Png) ++ lit "KB)"
                     ++ annotation ++ LF ++ data)), w)
       /\ data = slice base64Png 0 (MAX_SCREENSHOT_CHARS limits).
Proof.
  split; [reflexivity|].
  destruct (N.lt_ge_cases (MAX_SCREENSHOT_CHARS limits) (length base64Png))
    as [Hmax|Hmax].
  - exists (lit " [truncated]"), (slice base64Png 0 (MAX_SCREENSHOT_CHARS limits)).
    split; [|reflexivity]. now apply build_truncated.
  - eexists. exists base64Png. split.
    + now apply build_whole.
    + rewrite slice_from_0. symmetry. apply firstn_all2.
      unfold length in Hmax. lia.
Qed.

(** C9: the size annotation of every success message is
    [Math.round(length / 1024)] of the whole input, whatever the branch. *)
Theorem size_annotation_of_full_input
    (limits : TokenLimits) (env : Env)
    (base64Png label : js_string) (filePath : JsValue)
    (w w' : World) (text : js_string) :
  buildScreenshotResponse limits env base64Png label filePath w
    = (Normal (successResponse text), w') ->
  exists rest,
    text = camera ++ lit " " ++ label ++ lit " ("
           ++ Number_toString
                (Math_round (inject_Z (Z.of_N (length base64Png))
                             / inject_Z 1024))
           ++ lit "KB)" ++ rest.
Proof. apply build_success_header. Qed.

Lemma size_annotation_of_full_input_witness :
  exists rest,
    camera ++ lit " page (2KB) [truncated]" ++ LF ++ lit "AAAAAAAA"
    = camera ++ lit " " ++ lit "page" ++ lit " ("
      ++ Number_toString
           (Math_round (inject_Z (Z.of_N (length (repeat 65 2048)))
                        / inject_Z 1024))
      ++ lit "KB)" ++ rest.
Proof.
  apply (size_annotation_of_full_input Sample.limits Sample.env
           (repeat 65 2048) (lit "page") JsUndefined
           Sample.world0 Sample.world0).
  vm_compute. reflexivity.
Defined.

(* ===================================================================== *)
(** ** The response builder: how it can fail *)
(* ===================================================================== *)

(** C5, as the code has it: the builder never returns a failure
    envelope.  Without a file path it returns a success envelope and
    touches nothing.  It fails only in the save-to-file branch, exactly
    when the path does not resolve or the write fails, and then by
    throwing what its [catch] block makes of that failure: for a file
    path that is a string, the error whose message names the file path
    and the message of the underlying failure. *)
Theorem builder_fails_only_by_throwing
    (limits : TokenLimits) (env : Env)
    (base64Png label : js_string) (filePath : JsValue) (w : World) :
  (to_boolean filePath = false ->
   exists text,
     buildScreenshotResponse limits env base64Png label filePath w
     = (Normal (successResponse text), w))
  /\ (forall r w',
        buildScreenshotResponse limits env base64Png label filePath w
        = (Normal r, w') ->
        exists text, r = successResponse text)
  /\ (forall cause,
        to_boolean filePath = true ->
        resolve env filePath = Throw cause ->
        buildScreenshotResponse limits env base64Png label filePath w
        = (Throw (save_failure env filePath cause), w))
  /\ (forall absolutePath cause,
        to_boolean filePath = true ->
        resolve env filePath = Normal absolutePath ->
        writeFile_refused env absolutePath (Buffer.from_base64 base64Png)
          = Some cause ->
        exists w',
          buildScreenshotResponse limits env base64Png label filePath w
          = (Throw (save_failure env filePath cause), w')
          /\ calls w'
             = WriteFile absolutePath (Buffer.from_base64 base64Png)
               :: calls w)
  /\ (forall e w',
        buildScreenshotResponse limits env base64Png label filePath w
        = (Throw e, w') ->
        to_boolean filePath = true
        /\ exists cause,
             (resolve env filePath = Throw cause
              \/ exists absolutePath,
                   resolve env filePath = Normal absolutePath
                   /\ writeFile_refused env absolutePath
                        (Buffer.from_base64 base64Png) = Some cause)
             /\ e = save_failure env filePath cause)
  /\ (forall path cause,
        filePath = JsString path ->
        save_failure env filePath cause
        = new_Error (lit "Failed to save screenshot to " ++ path
                     ++ lit ": " ++ message cause)).
Proof.
  split; [|split; [|split; [|split; [|split]]]].
  - intros Hfp.
    destruct (N.lt_ge_cases (MAX_SCREENSHOT_CHARS limits)
                (length base64Png)) as [Hmax|Hmax].
    + rewrite build_truncated by assumption. eauto.
    + rewrite build_whole by assumption. eauto.
  - apply build_returns_success.
  - intros cause Hfp Hres. now apply build_resolve_throws.
  - intros absolutePath cause Hfp Hres Hwr.
    rewrite (build_write_refused _ _ _ _ _ _ absolutePath cause)
      by assumption.
    eexists. split; reflexivity.
  - intros e w'. destruct (to_boolean filePath) eqn:Hfp.
    + destruct (resolve env filePath) as [absolutePath|cause] eqn:Hres.
      * destruct (writeFile_refused env absolutePath
                    (Buffer.from_base64 base64Png)) as [cause|] eqn:Hwr.
        -- rewrite (build_write_refused _ _ _ _ _ _ absolutePath cause)
             by assumption.
           intros [= <- _]. split; [reflexivity|].
           exists cause. split; [right; eauto | reflexivity].
        -- rewrite (build_saved _ _ _ _ _ _ absolutePath) by assumption.
           discriminate.
      * rewrite (build_resolve_throws _ _ _ _ _ _ cause) by assumption.
        intros [= <- _]. split; [reflexivity|].
        exists cause. split; [left; reflexivity | reflexivity].
    + destruct (N.lt_ge_cases (MAX_SCREENSHOT_CHARS limits)
                  (length base64Png)) as [Hmax|Hmax].
      * rewrite build_truncated by assumption. discriminate.
      * rewrite build_whole by assumption. discriminate.
  - intros path cause ->. reflexivity.
Qed.

(** C5, as stated, fails for a file path that cannot be put into the
    message: an object with an own [toString] property is truthy, is no
    path to resolve, and makes the [catch] block itself throw, with an
    error that names neither the file path nor the failure of the
    resolution. *)
Lemma save_failure_without_path_or_cause :
  to_boolean (JsObject [(lit "toString", JsNumber 1)]) = true
  /\ resolve Sample.env (JsObject [(lit "toString", JsNumber 1)])
     = Throw (new_Error (lit "The paths[0] argument must be of type string"))
  /\ buildScreenshotResponse Sample.limits Sample.env Sample.png
       (lit "page") (JsObject [(lit "toString", JsNumber 1)]) Sample.world0
     = (Throw (new_Error (lit "Cannot convert object to primitive value")),
        Sample.world0)
  /\ includes (lit "Cannot convert object to primitive value")
              (lit "Failed to save screenshot") = false
  /\ includes (lit "Cannot convert object to primitive value")
              (lit "The paths[0] argument must be of type string") = false.
Proof. repeat split; vm_compute; reflexivity. Qed.

(** A string file path is named in the error, with the cause. *)
Example save_failure_names_path_and_cause :
  buildScreenshotResponse Sample.limits Sample.env Sample.png
    (lit "page") (JsString (lit "/readonly/out.png")) Sample.world0
  = (Throw (new_Error
              (lit "Failed to save screenshot to /readonly/out.png: EACCES: permission denied, open '/readonly/out.png'")),
     record_call (WriteFile (lit "/readonly/out.png")
                    (Buffer.from_base64 Sample.png)) Sample.world0).
Proof. vm_compute. reflexivity. Qed.

(* ===================================================================== *)
(** ** The response builder: saving to a file *)
(* ===================================================================== *)

(** C2, as the code has it: for every file path that is not empty and
    that resolves, when the write goes through, the builder writes the
    decoded bytes to the resolved absolute path and returns a success
    message made of the label, the size and that absolute path, with
    none of the data; and when the input is a canonical base64 string,
    re-encoding the content of the written file gives the input back. *)
Theorem saved_file_round_trip
    (limits : TokenLimits) (env : Env)
    (base64Png label : js_string) (filePath : JsValue)
    (absolutePath : js_string) (w : World) :
  to_boolean filePath = true ->
  resolve env filePath = Normal absolutePath ->
  writeFile_refused env absolutePath (Buffer.from_base64 base64Png) = None ->
  exists w',
    buildScreenshotResponse limits env base64Png label filePath w
    = (Normal (successResponse
                 (camera ++ lit " " ++ label ++ lit " ("
                  ++ Number_toString (sizeKB_of base64Png)
                  ++ lit "KB) saved to " ++ absolutePath)), w')
    /\ files w' !! absolutePath = Some (Buffer.from_base64 base64Png)
    /\ (canonical_base64 base64Png ->
        forall data,
          files w' !! absolutePath = Some data ->
          Buffer.toString_base64 data = base64Png).
Proof.
  intros Hfp Hres Hwr. eexists. split; [|split].
  - now apply build_saved.
  - cbn [files]. apply lookup_insert_eq.
  - cbn [files]. rewrite lookup_insert_eq. intros Hcan data [= <-].
    now apply toString_from_canonical.
Qed.

Lemma saved_file_round_trip_witness :
  exists w',
    buildScreenshotResponse Sample.limits Sample.env
      Sample.png (lit "page") (JsString (lit "out.png")) Sample.world0
    = (Normal (successResponse
                 (camera ++ lit " page (0KB) saved to /work/out.png")), w')
    /\ files w' !! lit "/work/out.png" = Some (Buffer.from_base64 Sample.png)
    /\ (canonical_base64 Sample.png ->
        forall data,
          files w' !! lit "/work/out.png" = Some data ->
          Buffer.toString_base64 data = Sample.png).
Proof.
  apply (saved_file_round_trip Sample.limits Sample.env
           Sample.png (lit "page") (JsString (lit "out.png"))
           (lit "/work/out.png") Sample.world0);
    vm_compute; reflexivity.
Defined.

(** The sample capture is canonical: it encodes the PNG signature. *)
Lemma sample_png_canonical : canonical_base64 Sample.png.
Proof.
  exists (Buffer.from_base64 Sample.png). vm_compute. reflexivity.
Qed.

(** C2, as stated, fails in three ways.  An empty file path is not
    saved: the data comes back inline and no file is written.  A string
    that a base64 decoder accepts but no encoder produces does not
    survive the round trip: the fourteen characters "AAAAAAAAAAAAAA"
    are saved as ten zero bytes, which encode to sixteen characters.  A
    refused write gives no success message: the builder throws. *)
Lemma saved_file_round_trip_fails :
  (buildScreenshotResponse Sample.limits Sample.env
     (lit "QUJD") (lit "page") (JsString []) Sample.world0
   = (Normal (successResponse (camera ++ lit " page (0KB)" ++ LF
                               ++ lit "QUJD")), Sample.world0))
  /\ (fst (buildScreenshotResponse Sample.limits Sample.env
             (repeat 65 14) (lit "page") (JsString (lit "/tmp/out.png"))
             Sample.world0)
      = Normal (successResponse
                  (camera ++ lit " page (0KB) saved to /tmp/out.png"))
      /\ files (snd (buildScreenshotResponse Sample.limits Sample.env
                       (repeat 65 14) (lit "page")
                       (JsString (lit "/tmp/out.png")) Sample.world0))
           !! lit "/tmp/out.png" = Some (repeat x00 10)
      /\ Buffer.toString_base64 (repeat x00 10) = lit "AAAAAAAAAAAAAA=="
      /\ lit "AAAAAAAAAAAAAA==" <> repeat 65 14)
  /\ (fst (buildScreenshotResponse Sample.limits Sample.env
             Sample.png (lit "page") (JsString (lit "/readonly/out.png"))
             Sample.world0)
      = Throw (new_Error
                 (lit "Failed to save screenshot to /readonly/out.png: EACCES: permission denied, open '/readonly/out.png'"))
      /\ files (snd (buildScreenshotResponse Sample.limits Sample.env
                       Sample.png (lit "page")
                       (JsString (lit "/readonly/out.png")) Sample.world0))
         = files Sample.world0).
Proof.
  split; [vm_compute; reflexivity|]. split.
  - split; [vm_compute; reflexivity|].
    split; [vm_compute; reflexivity|].
    split; [vm_compute; reflexivity|].
    intros H. apply (f_equal List.length) in H. vm_compute in H.
    discriminate.
  - split; vm_compute; reflexivity.
Qed.

(* ===================================================================== *)
(** ** The handlers, step by step *)
(* ===================================================================== *)

Section HandlerSteps.

Variable limits : TokenLimits.
Variable handleUidError : Error -> js_string -> Error.
Variable env : Env.

(** [args || {}] admits property access, whatever [args] is. *)
Lemma destructure_or_empty (args : JsValue) (w : World) :
  destructure "filePath" (or_else args (JsObject [])) w
  = (Normal (or_else args (JsObject [])), w).
Proof.
  unfold or_else. destruct args as [| |[]|n|s|props]; try reflexivity.
  - cbn [to_boolean]. destruct (n =? 0)%Z; reflexivity.
  - cbn [to_boolean]. destruct (length s =? 0); reflexivity.
Qed.

(** A value that has a [uid] string is an object. *)
Lemma destructure_with_uid (args : JsValue) (uid : js_string) (w : World) :
  Get args (lit "uid") = JsString uid ->
  destructure "uid" args w = (Normal args, w).
Proof. destruct args; try discriminate. reflexivity. Qed.

Lemma nonempty_string_accepted (s : js_string) :
  s <> [] -> not_a_nonempty_string (JsString s) = false.
Proof. destruct s; [congruence|]. reflexivity. Qed.

(** What is not a non-empty string, in the words of the specification. *)
Lemma not_a_nonempty_string_cases (v : JsValue) :
  v = JsString [] \/ v = JsUndefined \/ typeof v <> TString ->
  not_a_nonempty_string v = true.
Proof.
  intros [-> | [-> | Hty]]; try reflexivity.
  destruct v as [| |[]|n|s|props]; try reflexivity.
  - unfold not_a_nonempty_string. cbn [typeof JsType_eqb negb].
    apply orb_true_r.
  - now contradiction Hty.
Qed.

(** The element handler up to the capture: a request with a non-empty
    [uid], a module that loads and a handle that is obtained. *)
Lemma handleScreenshotByUid_reaches_capture
    (args : JsValue) (uid : js_string)
    (index : IndexModule) (firefox : Firefox) (w : World) :
  Get args (lit "uid") = JsString uid -> uid <> [] ->
  import_index env = Normal index ->
  getFirefox index = Normal firefox ->
  handleScreenshotByUid limits handleUidError env args w
  = match handleScreenshotByUid_capture limits handleUidError env
            firefox uid (Get args (lit "filePath")) (with_handle w) with
    | (Normal r, w') => (Normal r, w')
    | (Throw e, w') => (Normal (errorResponse e), w')
    end.
Proof.
  intros Huid Hne Himp Hget.
  unfold handleScreenshotByUid, handleScreenshotByUid_try.
  unfold try_catch at 1. unfold mbind at 1, M_bind at 1.
  rewrite (destructure_with_uid args uid) by assumption.
  rewrite Huid, (nonempty_string_accepted uid Hne).
  unfold mbind, M_bind, perform. rewrite Himp, Hget.
  cbn [ToString]. reflexivity.
Qed.

(** The page handler up to the capture. *)
Lemma handleScreenshotPage_reaches_capture
    (args : JsValue) (index : IndexModule) (firefox : Firefox) (w : World) :
  import_index env = Normal index ->
  getFirefox index = Normal firefox ->
  handleScreenshotPage limits env args w
  = match takeScreenshotPage firefox with
    | Normal base64Png =>
        if not_a_nonempty_string base64Png
        then (Normal (errorResponse (new_Error (lit "Invalid screenshot data"))),
              record_call TakeScreenshotPage (with_handle w))
        else
          match buildScreenshotResponse limits env (ToString base64Png)
                  (lit "page")
                  (Get (or_else args (JsObject [])) (lit "filePath"))
                  (record_call TakeScreenshotPage (with_handle w)) with
          | (Normal r, w') => (Normal r, w')
          | (Throw e, w') => (Normal (errorResponse e), w')
          end
    | Throw e =>
        (Normal (errorResponse e),
         record_call TakeScreenshotPage (with_handle w))
    end.
Proof.
  intros Himp Hget.
  unfold handleScreenshotPage, handleScreenshotPage_try.
  unfold try_catch at 1. unfold mbind at 1, M_bind at 1.
  rewrite destructure_or_empty.
  unfold mbind, M_bind, perform. rewrite Himp, Hget.
  destruct (takeScreenshotPage firefox) as [v|e]; [|reflexivity].
  destruct (not_a_nonempty_string v); reflexivity.
Qed.

(** What the [try] block of the page handler returns is a success
    envelope. *)
Lemma handleScreenshotPage_try_returns_success
    (args : JsValue) (w w' : World) (r : McpToolResponse) :
  handleScreenshotPage_try limits env args w = (Normal r, w') ->
  exists text, r = successResponse text.
Proof.
  unfold handleScreenshotPage_try. unfold mbind at 1, M_bind at 1.
  rewrite destructure_or_empty.
  unfold mbind, M_bind, perform, throw.
  destruct (import_index env) as [index|e]; [|discriminate].
  destruct (getFirefox index) as [firefox|e]; [|discriminate].
  destruct (takeScreenshotPage firefox) as [v|e]; [|discriminate].
  destruct (not_a_nonempty_string v); [discriminate|].
  apply build_returns_success.
Qed.

(** So is what the [try] block of the element handler returns. *)
Lemma handleScreenshotByUid_try_returns_success
    (args : JsValue) (w w' : World) (r : McpToolResponse) :
  handleScreenshotByUid_try limits handleUidError env args w
    = (Normal r, w') ->
  exists text, r = successResponse text.
Proof.
  unfold handleScreenshotByUid_try. unfold mbind at 1, M_bind at 1.
  destruct (destructure "uid" args w) as [[obj|e] w0]; [|discriminate].
  destruct (not_a_nonempty_string (Get obj (lit "uid")));
    [discriminate|].
  unfold handleScreenshotByUid_capture, try_catch, mbind, M_bind,
    perform, throw.
  destruct (import_index env) as [index|e]; [|discriminate].
  destruct (getFirefox index) as [firefox|e]; [|discriminate].
  destruct (takeScreenshotByUid firefox _) as [v|e]; [|discriminate].
  destruct (not_a_nonempty_string v); [discriminate|].
  destruct (buildScreenshotResponse _ _ _ _ _ _) as [[r0|e] w1] eqn:Hbuild;
    [|discriminate].
  intros [= <- _]. eapply build_returns_success, Hbuild.
Qed.

End HandlerSteps.

(* ===================================================================== *)
(** ** The handlers: every failure becomes an error envelope *)
(* ===================================================================== *)

(** C3: for every input, in every environment and world, both handlers
    complete normally with an envelope, never with a thrown error.
    Whatever their [try] block throws (a rejected argument, a failed
    import or capture, invalid capture data, a failed write) is the
    error of the error envelope returned; what the block returns is a
    success envelope and is returned as it is. *)
Theorem handlers_never_raise
    (limits : TokenLimits) (handleUidError : Error -> js_string -> Error)
    (env : Env) (args : JsValue) (w : World) :
  (exists r w',
     handleScreenshotPage limits env args w = (Normal r, w')
     /\ match handleScreenshotPage_try limits env args w with
        | (Normal r0, w0) =>
            r = r0 /\ w' = w0 /\ exists text, r0 = successResponse text
        | (Throw e, w0) => r = errorResponse e /\ w' = w0
        end)
  /\ (exists r w',
        handleScreenshotByUid limits handleUidError env args w
        = (Normal r, w')
        /\ match handleScreenshotByUid_try limits handleUidError env args w
           with
           | (Normal r0, w0) =>
               r = r0 /\ w' = w0 /\ exists text, r0 = successResponse text
           | (Throw e, w0) => r = errorResponse e /\ w' = w0
           end).
Proof.
  split.
  - unfold handleScreenshotPage, try_catch.
    destruct (handleScreenshotPage_try limits env args w)
      as [[r|e] w'] eqn:Htry; eexists _, _; (split; [reflexivity|]).
    + split; [reflexivity|]. split; [reflexivity|].
      eapply handleScreenshotPage_try_returns_success, Htry.
    + split; reflexivity.
  - unfold handleScreenshotByUid, try_catch.
    destruct (handleScreenshotByUid_try limits handleUidError env args w)
      as [[r|e] w'] eqn:Htry; eexists _, _; (split; [reflexivity|]).
    + split; [reflexivity|]. split; [reflexivity|].
      eapply handleScreenshotByUid_try_returns_success, Htry.
    + split; reflexivity.
Qed.

(** X4: the failures before the capture: a module that does not load
    and a handle that is not obtained end both handlers with the
    envelope of that error, as it is; the element handler does not pass
    it through the UID translation. *)
Lemma handle_not_obtained
    (limits : TokenLimits) (handleUidError : Error -> js_string -> Error)
    (env : Env) (args : JsValue) (uid : js_string) (e : Error) (w : World) :
  import_index env = Throw e
  \/ (exists index,
        import_index env = Normal index /\ getFirefox index = Throw e) ->
  (exists w',
     handleScreenshotPage limits env args w
     = (Normal (errorResponse e), w'))
  /\ (Get args (lit "uid") = JsString uid -> uid <> [] ->
      exists w',
        handleScreenshotByUid limits handleUidError env args w
        = (Normal (errorResponse e), w')).
Proof.
  intros Hfail. split.
  - unfold handleScreenshotPage, handleScreenshotPage_try.
    unfold try_catch at 1. unfold mbind at 1, M_bind at 1.
    rewrite destructure_or_empty. unfold mbind, M_bind, perform.
    destruct Hfail as [-> | (index & -> & ->)]; eauto.
  - intros Huid Hne.
    unfold handleScreenshotByUid, handleScreenshotByUid_try.
    unfold try_catch at 1. unfold mbind at 1, M_bind at 1.
    rewrite (destructure_with_uid args uid) by assumption.
    rewrite Huid, (nonempty_string_accepted uid Hne).
    unfold mbind, M_bind, perform.
    destruct Hfail as [-> | (index & -> & ->)]; eauto.
Qed.

(** X5: a failed page capture ends the page handler with the envelope
    of that failure, as it is, after the three calls. *)
Lemma page_capture_failure
    (limits : TokenLimits) (env : Env) (args : JsValue)
    (index : IndexModule) (firefox : Firefox) (e : Error) (w : World) :
  import_index env = Normal index ->
  getFirefox index = Normal firefox ->
  takeScreenshotPage firefox = Throw e ->
  handleScreenshotPage limits env args w
  = (Normal (errorResponse e),
     record_call TakeScreenshotPage (with_handle w)).
Proof.
  intros Himp Hget Hcap.
  rewrite (handleScreenshotPage_reaches_capture _ _ args index firefox)
    by assumption.
  now rewrite Hcap.
Qed.

(** When an arguments value is given and its [uid] is the empty string,
    absent, or not a string, [handleScreenshotByUid] returns the error
    envelope of "uid required" and leaves the world as it was. *)
Theorem uid_required
    (limits : TokenLimits) (handleUidError : Error -> js_string -> Error)
    (env : Env) (args : JsValue) (w : World) :
  args <> JsUndefined -> args <> JsNull ->
  Get args (lit "uid") = JsString []
  \/ Get args (lit "uid") = JsUndefined
  \/ typeof (Get args (lit "uid")) <> TString ->
  handleScreenshotByUid limits handleUidError env args w
  = (Normal (errorResponse (new_Error (lit "uid required"))), w).
Proof.
  intros Hundef Hnull Huid.
  apply not_a_nonempty_string_cases in Huid.
  unfold handleScreenshotByUid, handleScreenshotByUid_try.
  unfold try_catch, mbind, M_bind.
  destruct args; try congruence;
    (cbn [destructure mret M_ret]; rewrite Huid; reflexivity).
Qed.

Lemma uid_required_witness :
  handleScreenshotByUid Sample.limits Sample.handleUidError Sample.env
    (Sample.request (JsString []) (JsString (lit "/tmp/out.png")))
    Sample.world0
  = (Normal (errorResponse (new_Error (lit "uid required"))), Sample.world0)
  /\ handleScreenshotByUid Sample.limits Sample.handleUidError Sample.env
       (JsObject [(lit "filePath", JsString (lit "/tmp/out.png"))])
       Sample.world0
     = (Normal (errorResponse (new_Error (lit "uid required"))),
        Sample.world0)
  /\ handleScreenshotByUid Sample.limits Sample.handleUidError Sample.env
       (Sample.request (JsNumber 7) JsUndefined) Sample.world0
     = (Normal (errorResponse (new_Error (lit "uid required"))),
        Sample.world0).
Proof.
  split; [|split].
  - apply (uid_required Sample.limits Sample.handleUidError Sample.env
             (Sample.request (JsString []) (JsString (lit "/tmp/out.png")))
             Sample.world0); [discriminate | discriminate |].
    left. vm_compute. reflexivity.
  - apply (uid_required Sample.limits Sample.handleUidError Sample.env
             (JsObject [(lit "filePath", JsString (lit "/tmp/out.png"))])
             Sample.world0); [discriminate | discriminate |].
    right. left. vm_compute. reflexivity.
  - apply (uid_required Sample.limits Sample.handleUidError Sample.env
             (Sample.request (JsNumber 7) JsUndefined) Sample.world0);
      [discriminate | discriminate |].
    right. right. vm_compute. discriminate.
Defined.

(** X14: without an arguments value at all, destructuring fails before
    the [uid] is looked at: the envelope carries that error, and again
    nothing outside the handler is touched. *)
Lemma handleScreenshotByUid_without_args
    (limits : TokenLimits) (handleUidError : Error -> js_string -> Error)
    (env : Env) (args : JsValue) (w : World) :
  args = JsUndefined \/ args = JsNull ->
  handleScreenshotByUid limits handleUidError env args w
  = (Normal (errorResponse (TypeError_destructure "uid" args)), w).
Proof. intros [-> | ->]; reflexivity. Qed.

(** C4, as the code has it: for every request whose [uid] is the empty
    string, absent, or not a string, a call without arguments included,
    [handleScreenshotByUid] returns an error envelope and leaves the
    world as it was: nothing is imported, no handle is obtained, no
    capture is asked for.  The error is "uid required" whenever an
    arguments value is given, that is, one that is neither [undefined]
    nor [null]. *)
Theorem invalid_uid_is_rejected
    (limits : TokenLimits) (handleUidError : Error -> js_string -> Error)
    (env : Env) (args : JsValue) (w : World) :
  Get args (lit "uid") = JsString []
  \/ Get args (lit "uid") = JsUndefined
  \/ typeof (Get args (lit "uid")) <> TString ->
  exists e,
    handleScreenshotByUid limits handleUidError env args w
    = (Normal (errorResponse e), w)
    /\ (args <> JsUndefined -> args <> JsNull ->
        e = new_Error (lit "uid required")).
Proof.
  intros Huid. apply not_a_nonempty_string_cases in Huid.
  unfold handleScreenshotByUid, handleScreenshotByUid_try.
  unfold try_catch, mbind, M_bind.
  destruct args; cbn [destructure mret M_ret throw];
    try (rewrite Huid); eexists;
    (split; [reflexivity | congruence]).
Qed.

Lemma invalid_uid_is_rejected_witness :
  (exists e,
     handleScreenshotByUid Sample.limits Sample.handleUidError Sample.env
       (Sample.request (JsString []) (JsString (lit "/tmp/out.png")))
       Sample.world0
     = (Normal (errorResponse e), Sample.world0)
     /\ (Sample.request (JsString []) (JsString (lit "/tmp/out.png"))
         <> JsUndefined ->
         Sample.request (JsString []) (JsString (lit "/tmp/out.png"))
         <> JsNull ->
         e = new_Error (lit "uid required")))
  /\ (exists e,
        handleScreenshotByUid Sample.limits Sample.handleUidError Sample.env
          JsUndefined Sample.world0
        = (Normal (errorResponse e), Sample.world0)
        /\ (JsUndefined <> JsUndefined -> JsUndefined <> JsNull ->
            e = new_Error (lit "uid required"))).
Proof.
  split.
  - apply (invalid_uid_is_rejected
             Sample.limits Sample.handleUidError Sample.env
             (Sample.request (JsString []) (JsString (lit "/tmp/out.png")))
             Sample.world0).
    left. reflexivity.
  - apply (invalid_uid_is_rejected
             Sample.limits Sample.handleUidError Sample.env
             JsUndefined Sample.world0).
    right. left. reflexivity.
Defined.

(** C4, as stated, fails for a call without arguments: the [uid] is
    absent, the envelope is an error envelope and nothing was called,
    but its message is that of the failed destructuring, not
    "uid required". *)
Lemma no_arguments_is_not_uid_required :
  Get JsUndefined (lit "uid") = JsUndefined
  /\ handleScreenshotByUid Sample.limits Sample.handleUidError Sample.env
       JsUndefined Sample.world0
     = (Normal (errorResponse
                  (new_Error (lit "Cannot destructure property 'uid' of 'args' as it is undefined."))),
        Sample.world0)
  /\ lit "Cannot destructure property 'uid' of 'args' as it is undefined."
     <> lit "uid required".
Proof.
  split; [reflexivity|]. split; [reflexivity|].
  intros H. vm_compute in H. discriminate.
Qed.

(* ===================================================================== *)
(** ** The element handler: errors pass through the UID translation *)
(* ===================================================================== *)

(** The sample translation does what the specification asks of it. *)
Lemma sample_references_uid :
  references_uid Sample.handleUidError Sample.lookup_failure.
Proof.
  intros e uid He. unfold Sample.handleUidError. rewrite He.
  cbn [message]. apply includes_app.
Qed.

(** C7: in [handleScreenshotByUid], when the capture call fails, the
    envelope returned carries the error that [handleUidError] makes of
    that failure and of the uid; so, for a translation that does what
    the specification says and a failure that is a lookup failure, the
    message of the envelope contains the uid. *)
Theorem capture_failure_is_translated
    (limits : TokenLimits) (handleUidError : Error -> js_string -> Error)
    (env : Env) (args : JsValue) (uid : js_string)
    (index : IndexModule) (firefox : Firefox) (cause : Error) (w : World) :
  Get args (lit "uid") = JsString uid -> uid <> [] ->
  import_index env = Normal index ->
  getFirefox index = Normal firefox ->
  takeScreenshotByUid firefox uid = Throw cause ->
  handleScreenshotByUid limits handleUidError env args w
  = (Normal (errorResponse (handleUidError cause uid)),
     record_call (TakeScreenshotByUid uid) (with_handle w))
  /\ forall lookup_failure,
       references_uid handleUidError lookup_failure ->
       lookup_failure cause = true ->
       includes (message (handleUidError cause uid)) uid = true.
Proof.
  intros Huid Hne Himp Hget Hcap. split.
  - rewrite (handleScreenshotByUid_reaches_capture _ _ _ args uid index firefox)
      by assumption.
    unfold handleScreenshotByUid_capture, try_catch, mbind, M_bind, perform.
    rewrite Hcap. reflexivity.
  - intros lookup_failure Hspec Hcause. now apply Hspec.
Qed.

Lemma capture_failure_is_translated_witness :
  handleScreenshotByUid Sample.limits Sample.handleUidError Sample.env
    (Sample.request (JsString (lit "e7")) JsUndefined) Sample.world0
  = (Normal (errorResponse
               (new_Error (lit "Element with UID e7 not found: take a new snapshot and retry"))),
     record_call (TakeScreenshotByUid (lit "e7"))
       (with_handle Sample.world0))
  /\ includes (lit "Element with UID e7 not found: take a new snapshot and retry")
              (lit "e7") = true.
Proof.
  destruct (capture_failure_is_translated
              Sample.limits Sample.handleUidError Sample.env
              (Sample.request (JsString (lit "e7")) JsUndefined) (lit "e7")
              {| getFirefox := Normal Sample.firefox |} Sample.firefox
              (new_Error (lit "element not found")) Sample.world0)
    as [Hrun Hmsg]; try (vm_compute; reflexivity).
  - discriminate.
  - split.
    + exact Hrun.
    + exact (Hmsg Sample.lookup_failure sample_references_uid eq_refl).
Defined.

(** C10: in [handleScreenshotByUid] the "Invalid screenshot data"
    failure and whatever [buildScreenshotResponse] throws pass through
    [handleUidError] before they reach the envelope; in
    [handleScreenshotPage] the same failures reach the envelope as they
    are. *)
Theorem uid_translation_covers_validation_and_write
    (limits : TokenLimits) (handleUidError : Error -> js_string -> Error)
    (env : Env) (index : IndexModule) (firefox : Firefox) :
  import_index env = Normal index ->
  getFirefox index = Normal firefox ->
  (forall args uid v w,
     Get args (lit "uid") = JsString uid -> uid <> [] ->
     takeScreenshotByUid firefox uid = Normal v ->
     not_a_nonempty_string v = true ->
     handleScreenshotByUid limits handleUidError env args w
     = (Normal (errorResponse
                  (handleUidError
                     (new_Error (lit "Invalid screenshot data")) uid)),
        record_call (TakeScreenshotByUid uid) (with_handle w)))
  /\ (forall args uid base64Png e w w',
        Get args (lit "uid") = JsString uid -> uid <> [] ->
        takeScreenshotByUid firefox uid = Normal (JsString base64Png) ->
        base64Png <> [] ->
        buildScreenshotResponse limits env base64Png uid
          (Get args (lit "filePath"))
          (record_call (TakeScreenshotByUid uid) (with_handle w))
        = (Throw e, w') ->
        handleScreenshotByUid limits handleUidError env args w
        = (Normal (errorResponse (handleUidError e uid)), w'))
  /\ (forall args v w,
        takeScreenshotPage firefox = Normal v ->
        not_a_nonempty_string v = true ->
        handleScreenshotPage limits env args w
        = (Normal (errorResponse (new_Error (lit "Invalid screenshot data"))),
           record_call TakeScreenshotPage (with_handle w)))
  /\ (forall args base64Png e w w',
        takeScreenshotPage firefox = Normal (JsString base64Png) ->
        base64Png <> [] ->
        buildScreenshotResponse limits env base64Png (lit "page")
          (Get (or_else args (JsObject [])) (lit "filePath"))
          (record_call TakeScreenshotPage (with_handle w))
        = (Throw e, w') ->
        handleScreenshotPage limits env args w
        = (Normal (errorResponse e), w')).
Proof.
  intros Himp Hget. repeat split.
  - intros args uid v w Huid Hne Hcap Hbad.
    rewrite (handleScreenshotByUid_reaches_capture _ _ _ args uid index firefox)
      by assumption.
    unfold handleScreenshotByUid_capture, try_catch, mbind, M_bind, perform.
    rewrite Hcap, Hbad. reflexivity.
  - intros args uid base64Png e w w' Huid Hne Hcap Hdata Hbuild.
    rewrite (handleScreenshotByUid_reaches_capture _ _ _ args uid index firefox)
      by assumption.
    unfold handleScreenshotByUid_capture, try_catch, mbind, M_bind, perform.
    rewrite Hcap, (nonempty_string_accepted base64Png Hdata).
    cbn [ToString]. rewrite Hbuild. reflexivity.
  - intros args v w Hcap Hbad.
    rewrite (handleScreenshotPage_reaches_capture _ _ args index firefox)
      by assumption.
    rewrite Hcap, Hbad. reflexivity.
  - intros args base64Png e w w' Hcap Hdata Hbuild.
    rewrite (handleScreenshotPage_reaches_capture _ _ args index firefox)
      by assumption.
    rewrite Hcap, (nonempty_string_accepted base64Png Hdata).
    cbn [ToString]. rewrite Hbuild. reflexivity.
Qed.

Lemma uid_translation_covers_validation_and_write_witness :
  handleScreenshotByUid Sample.limits Sample.handleUidError Sample.env
    (Sample.request (JsString (lit "e0")) JsUndefined) Sample.world0
  = (Normal (errorResponse
               (Sample.handleUidError
                  (new_Error (lit "Invalid screenshot data")) (lit "e0"))),
     record_call (TakeScreenshotByUid (lit "e0"))
       (with_handle Sample.world0))
  /\ handleScreenshotByUid Sample.limits Sample.handleUidError Sample.env
       (Sample.request (JsString (lit "e1"))
          (JsString (lit "/readonly/a.png"))) Sample.world0
     = (Normal (errorResponse
                  (Sample.handleUidError
                     (new_Error
                        (lit "Failed to save screenshot to /readonly/a.png: EACCES: permission denied, open '/readonly/a.png'"))
                     (lit "e1"))),
        record_call
          (WriteFile (lit "/readonly/a.png")
             (Buffer.from_base64 Sample.png))
          (record_call (TakeScreenshotByUid (lit "e1"))
             (with_handle Sample.world0)))
  /\ handleScreenshotPage Sample.limits Sample.env
       (Sample.request JsUndefined (JsString (lit "/readonly/a.png")))
       Sample.world0
     = (Normal (errorResponse
                  (new_Error
                     (lit "Failed to save screenshot to /readonly/a.png: EACCES: permission denied, open '/readonly/a.png'"))),
        record_call
          (WriteFile (lit "/readonly/a.png")
             (Buffer.from_base64 Sample.png))
          (record_call TakeScreenshotPage (with_handle Sample.world0)))
  /\ handleScreenshotPage Sample.limits
       (Sample.env_of Sample.blank_firefox) JsUndefined Sample.world0
     = (Normal (errorResponse (new_Error (lit "Invalid screenshot data"))),
        record_call TakeScreenshotPage (with_handle Sample.world0)).
Proof.
  destruct (uid_translation_covers_validation_and_write
              Sample.limits Sample.handleUidError Sample.env
              {| getFirefox := Normal Sample.firefox |} Sample.firefox
              eq_refl eq_refl) as (Hinvalid & Hwrite & _ & Hpage_write).
  destruct (uid_translation_covers_validation_and_write
              Sample.limits Sample.handleUidError
              (Sample.env_of Sample.blank_firefox)
              {| getFirefox := Normal Sample.blank_firefox |}
              Sample.blank_firefox
              eq_refl eq_refl) as (_ & _ & Hpage_invalid & _).
  split; [|split; [|split]].
  - apply (Hinvalid _ (lit "e0") (JsString []));
      try (vm_compute; reflexivity). discriminate.
  - apply (Hwrite _ (lit "e1") Sample.png);
      try (vm_compute; reflexivity); discriminate.
  - apply (Hpage_write _ Sample.png);
      try (vm_compute; reflexivity). discriminate.
  - apply (Hpage_invalid _ (JsString [])); vm_compute; reflexivity.
Defined.

(* ===================================================================== *)
(** ** Further properties of the response builder *)
(* ===================================================================== *)

(** X1: up to and including [WARNING_THRESHOLD_CHARS] (and not over the
    hard maximum), the inline message carries the whole string and no
    annotation: the warning starts strictly above the threshold. *)
Theorem plain_up_to_warning_threshold
    (limits : TokenLimits) (env : Env)
    (base64Png label : js_string) (filePath : JsValue) (w : World) :
  to_boolean filePath = false ->
  length base64Png <= WARNING_THRESHOLD_CHARS limits ->
  length base64Png <= MAX_SCREENSHOT_CHARS limits ->
  buildScreenshotResponse limits env base64Png label filePath w
  = (Normal (successResponse
               (camera ++ lit " " ++ label ++ lit " ("
                ++ Number_toString (sizeKB_of base64Png) ++ lit "KB)"
                ++ LF ++ base64Png)), w).
Proof.
  intros Hfp Hwarn Hmax. rewrite build_whole by assumption.
  apply N.ltb_ge in Hwarn. rewrite Hwarn. reflexivity.
Qed.

Lemma plain_up_to_warning_threshold_witness :
  buildScreenshotResponse Sample.limits Sample.env
    (lit "AAAA") (lit "page") JsNull Sample.world0
  = (Normal (successResponse (camera ++ lit " page (0KB)" ++ LF
                              ++ lit "AAAA")), Sample.world0).
Proof.
  apply (plain_up_to_warning_threshold Sample.limits Sample.env
           (lit "AAAA") (lit "page") JsNull Sample.world0);
    vm_compute; congruence.
Defined.

(** X2: without a file path the builder always succeeds, leaves the
    world alone, and emits a prefix of the input of
    [min(length, MAX_SCREENSHOT_CHARS)] code units, so never more than
    the hard maximum.  The annotation is decided by the two thresholds,
    truncation first: "[large]" never marks truncated data, and with a
    warning threshold at or above the maximum it never appears. *)
Theorem inline_payload_bounded
    (limits : TokenLimits) (env : Env)
    (base64Png label : js_string) (filePath : JsValue) (w : World) :
  to_boolean filePath = false ->
  exists annotation data rest,
    buildScreenshotResponse limits env base64Png label filePath w
    = (Normal (successResponse
                 (camera ++ lit " " ++ label ++ lit " ("
                  ++ Number_toString (sizeKB_of base64Png) ++ lit "KB)"
                  ++ annotation ++ LF ++ data)), w)
    /\ base64Png = data ++ rest
    /\ length data = N.min (length base64Png) (MAX_SCREENSHOT_CHARS limits)
    /\ (annotation = lit " [truncated]"
          /\ MAX_SCREENSHOT_CHARS limits < length base64Png
        \/ annotation = lit " [large]"
          /\ WARNING_THRESHOLD_CHARS limits < length base64Png
          /\ length base64Png <= MAX_SCREENSHOT_CHARS limits
        \/ annotation = []
          /\ length base64Png <= WARNING_THRESHOLD_CHARS limits
          /\ length base64Png <= MAX_SCREENSHOT_CHARS limits).
Proof.
  intros Hfp.
  destruct (N.lt_ge_cases (MAX_SCREENSHOT_CHARS limits) (length base64Png))
    as [Hmax|Hmax].
  - destruct (slice_prefix base64Png (MAX_SCREENSHOT_CHARS limits))
      as [Hlen [rest Hrest]]; [lia|].
    exists (lit " [truncated]"),
      (slice base64Png 0 (MAX_SCREENSHOT_CHARS limits)), rest.
    split; [now apply build_truncated|].
    split; [assumption|]. split; [lia|]. left. split; [reflexivity|lia].
  - rewrite build_whole by assumption.
    destruct (N.ltb_spec (WARNING_THRESHOLD_CHARS limits) (length base64Png))
      as [Hwarn|Hwarn].
    + exists (lit " [large]"), base64Png, [].
      split; [reflexivity|]. split; [now rewrite app_nil_r|].
      split; [lia|]. right. left. auto.
    + exists [], base64Png, [].
      split; [reflexivity|]. split; [now rewrite app_nil_r|].
      split; [lia|]. right. right. auto.
Qed.

Lemma inline_payload_bounded_witness :
  exists annotation data rest,
    buildScreenshotResponse Sample.limits Sample.env
      Sample.png (lit "page") (JsNumber 0) Sample.world0
    = (Normal (successResponse
                 (camera ++ lit " " ++ lit "page" ++ lit " ("
                  ++ Number_toString (sizeKB_of Sample.png) ++ lit "KB)"
                  ++ annotation ++ LF ++ data)), Sample.world0)
    /\ Sample.png = data ++ rest
    /\ length data = N.min (length Sample.png) 8
    /\ (annotation = lit " [truncated]" /\ 8 < length Sample.png
        \/ annotation = lit " [large]"
           /\ 4 < length Sample.png /\ length Sample.png <= 8
        \/ annotation = []
           /\ length Sample.png <= 4 /\ length Sample.png <= 8).
Proof.
  apply (inline_payload_bounded Sample.limits Sample.env
           Sample.png (lit "page") (JsNumber 0) Sample.world0).
  reflexivity.
Defined.

(** X3: the size annotation is the length in kilobytes rounded to the
    nearest, halves up: it is never negative and [1024 * sizeKB] is
    within 512 code units of the length.  So anything shorter than 512
    code units is announced as 0KB. *)
Theorem sizeKB_nearest_kilobyte (base64Png : js_string) :
  (0 <= sizeKB_of base64Png)%Z
  /\ (1024 * sizeKB_of base64Png - 512 <= Z.of_N (length base64Png))%Z
  /\ (Z.of_N (length base64Png) < 1024 * sizeKB_of base64Png + 512)%Z.
Proof.
  rewrite sizeKB_of_div.
  pose proof (N2Z.is_nonneg (length base64Png)) as Hlen.
  pose proof (Z.div_mod (Z.of_N (length base64Png) + 512) 1024) as Hdiv.
  pose proof (Z.mod_pos_bound (Z.of_N (length base64Png) + 512) 1024) as Hmod.
  assert (0 <= (Z.of_N (length base64Png) + 512) / 1024)%Z
    by (apply Z.div_pos; lia).
  lia.
Qed.

(* ===================================================================== *)
(** ** What a run does to the world *)
(* ===================================================================== *)

Section Effects.

Variable limits : TokenLimits.
Variable handleUidError : Error -> js_string -> Error.
Variable env : Env.

(** The builder changes the world in the save-to-file branch only: by
    one write call at the resolved path, failed or done. *)
Lemma build_effects
    (base64Png label : js_string) (filePath : JsValue) (w : World) :
  exists c w',
    buildScreenshotResponse limits env base64Png label filePath w = (c, w')
    /\ ((w' = w /\ ((exists text, c = Normal (successResponse text))
                    \/ exists e, c = Throw e))
        \/ exists absolutePath,
             to_boolean filePath = true
             /\ resolve env filePath = Normal absolutePath
             /\ calls w' = WriteFile absolutePath (Buffer.from_base64 base64Png)
                           :: calls w
             /\ ((exists e,
                    c = Throw e
                    /\ files w'
                       = after_refused_write env absolutePath
                           (Buffer.from_base64 base64Png) (files w)
                    /\ writeFile_refused env absolutePath
                         (Buffer.from_base64 base64Png) <> None)
                 \/ (exists text,
                       c = Normal (successResponse text)
                       /\ files w'
                          = <[absolutePath := Buffer.from_base64 base64Png]>
                              (files w)
                       /\ writeFile_refused env absolutePath
                            (Buffer.from_base64 base64Png) = None))).
Proof.
  destruct (to_boolean filePath) eqn:Hfp.
  - destruct (resolve env filePath) as [absolutePath|cause] eqn:Hres.
    + destruct (writeFile_refused env absolutePath
                  (Buffer.from_base64 base64Png)) as [cause|] eqn:Hwr.
      * eexists _, _. split;
          [apply (build_write_refused _ _ _ _ _ _ absolutePath cause);
           assumption|].
        right. exists absolutePath. repeat split; try assumption.
        left. eexists. repeat split. congruence.
      * eexists _, _. split;
          [apply (build_saved _ _ _ _ _ _ absolutePath); assumption|].
        right. exists absolutePath. repeat split; try assumption.
        right. eexists. repeat split. assumption.
    + eexists _, _. split;
        [apply (build_resolve_throws _ _ _ _ _ _ cause); assumption|].
      left. split; [reflexivity|]. right. eauto.
  - destruct (N.lt_ge_cases (MAX_SCREENSHOT_CHARS limits)
                (length base64Png)) as [Hmax|Hmax].
    + eexists _, _. split; [apply build_truncated; assumption|].
      left. split; [reflexivity|]. left. eauto.
    + eexists _, _. split; [apply build_whole; assumption|].
      left. split; [reflexivity|]. left. eauto.
Qed.

(** What passes the validation is a non-empty string. *)
Lemma accepted_is_nonempty_string (v : JsValue) :
  not_a_nonempty_string v = false ->
  exists s, v = JsString s /\ s <> [].
Proof.
  unfold not_a_nonempty_string.
  destruct v as [| |b|n|[|c s]|props];
    cbn [typeof JsType_eqb negb]; rewrite ?orb_true_r;
    try discriminate.
  intros _. eexists. split; [reflexivity|discriminate].
Qed.

(** [(args || {}).filePath] is [args.filePath] for every value. *)
Lemma Get_or_else_empty (args : JsValue) (k : js_string) :
  Get (or_else args (JsObject [])) k = Get args k.
Proof.
  unfold or_else. destruct args as [| |[]|n|s|props]; try reflexivity.
  - cbn [to_boolean]. destruct (n =? 0)%Z; reflexivity.
  - cbn [to_boolean]. destruct (length s =? 0); reflexivity.
Qed.

(** The runs of the page handler. *)
Lemma page_run_shape (args : JsValue) (w : World) :
  exists r w',
    handleScreenshotPage limits env args w = (Normal r, w')
    /\ run_shape env TakeScreenshotPage takeScreenshotPage
         (Get args (lit "filePath")) w r w'.
Proof.
  destruct (import_index env) as [index|e] eqn:Himp.
  2:{ eexists _, (record_call ImportIndex w). split.
      - unfold handleScreenshotPage, handleScreenshotPage_try.
        unfold try_catch at 1. unfold mbind at 1, M_bind at 1.
        rewrite destructure_or_empty. unfold mbind, M_bind, perform.
        rewrite Himp. reflexivity.
      - exists [ImportIndex]. split; [reflexivity|]. left.
        split; [cbn [rev app]; eexists; reflexivity | reflexivity]. }
  destruct (getFirefox index) as [firefox|e] eqn:Hget.
  2:{ eexists _, (with_handle w). split.
      - unfold handleScreenshotPage, handleScreenshotPage_try.
        unfold try_catch at 1. unfold mbind at 1, M_bind at 1.
        rewrite destructure_or_empty. unfold mbind, M_bind, perform.
        rewrite Himp, Hget. reflexivity.
      - exists [GetFirefox; ImportIndex]. split; [reflexivity|]. left.
        split; [cbn [rev app]; eexists; reflexivity | reflexivity]. }
  rewrite (handleScreenshotPage_reaches_capture _ _ args index firefox)
    by assumption.
  rewrite Get_or_else_empty.
  destruct (takeScreenshotPage firefox) as [v|e] eqn:Hcap.
  2:{ eexists _, _. split; [reflexivity|].
      exists [TakeScreenshotPage; GetFirefox; ImportIndex].
      split; [reflexivity|]. left.
      split; [cbn [rev app]; eexists; reflexivity | reflexivity]. }
  destruct (not_a_nonempty_string v) eqn:Hv.
  { eexists _, _. split; [reflexivity|].
    exists [TakeScreenshotPage; GetFirefox; ImportIndex].
    split; [reflexivity|]. left.
    split; [cbn [rev app]; eexists; reflexivity | reflexivity]. }
  destruct (accepted_is_nonempty_string v Hv) as (base64Png & -> & Hne).
  cbn [ToString].
  destruct (build_effects base64Png (lit "page") (Get args (lit "filePath"))
              (record_call TakeScreenshotPage (with_handle w)))
    as (c & w' & -> & [[-> Hc] | (absolutePath & Hfp & Hres & Hcalls & Hc)]).
  - destruct Hc as [[text ->] | [e ->]]; eexists _, _;
      (split; [reflexivity|]);
      exists [TakeScreenshotPage; GetFirefox; ImportIndex];
      (split; [reflexivity|]); left;
      (split; [cbn [rev app]; eexists; reflexivity | reflexivity]).
  - destruct Hc as [(e & -> & Hfiles & Hwr) | (text & -> & Hfiles & Hwr)];
      eexists _, _; (split; [reflexivity|]);
      exists [WriteFile absolutePath (Buffer.from_base64 base64Png);
              TakeScreenshotPage; GetFirefox; ImportIndex];
      (split; [exact Hcalls|]); right;
      exists index, firefox, base64Png, absolutePath;
      repeat (split; [assumption || reflexivity|]).
    + left. exists e. auto.
    + right. exists text. auto.
Qed.

(** The runs of the element handler, for a request with a non-empty
    [uid]; any other request ends before the first call (C4). *)
Lemma uid_run_shape (args : JsValue) (uid : js_string) (w : World) :
  Get args (lit "uid") = JsString uid -> uid <> [] ->
  exists r w',
    handleScreenshotByUid limits handleUidError env args w = (Normal r, w')
    /\ run_shape env (TakeScreenshotByUid uid)
         (fun firefox => takeScreenshotByUid firefox uid)
         (Get args (lit "filePath")) w r w'.
Proof.
  intros Huid Hne.
  destruct (import_index env) as [index|e] eqn:Himp.
  2:{ eexists _, (record_call ImportIndex w). split.
      - unfold handleScreenshotByUid, handleScreenshotByUid_try.
        unfold try_catch at 1. unfold mbind at 1, M_bind at 1.
        rewrite (destructure_with_uid args uid) by assumption.
        rewrite Huid, (nonempty_string_accepted uid Hne).
        unfold mbind, M_bind, perform. rewrite Himp. reflexivity.
      - exists [ImportIndex]. split; [reflexivity|]. left.
        split; [cbn [rev app]; eexists; reflexivity | reflexivity]. }
  destruct (getFirefox index) as [firefox|e] eqn:Hget.
  2:{ eexists _, (with_handle w). split.
      - unfold handleScreenshotByUid, handleScreenshotByUid_try.
        unfold try_catch at 1. unfold mbind at 1, M_bind at 1.
        rewrite (destructure_with_uid args uid) by assumption.
        rewrite Huid, (nonempty_string_accepted uid Hne).
        unfold mbind, M_bind, perform. rewrite Himp, Hget. reflexivity.
      - exists [GetFirefox; ImportIndex]. split; [reflexivity|]. left.
        split; [cbn [rev app]; eexists; reflexivity | reflexivity]. }
  rewrite (handleScreenshotByUid_reaches_capture _ _ _ args uid index firefox)
    by assumption.
  unfold handleScreenshotByUid_capture, try_catch, mbind, M_bind, perform,
    throw.
  destruct (takeScreenshotByUid firefox uid) as [v|e] eqn:Hcap.
  2:{ eexists _, _. split; [reflexivity|].
      exists [TakeScreenshotByUid uid; GetFirefox; ImportIndex].
      split; [reflexivity|]. left.
      split; [cbn [rev app]; eexists; reflexivity | reflexivity]. }
  destruct (not_a_nonempty_string v) eqn:Hv.
  { eexists _, _. split; [reflexivity|].
    exists [TakeScreenshotByUid uid; GetFirefox; ImportIndex].
    split; [reflexivity|]. left.
    split; [cbn [rev app]; eexists; reflexivity | reflexivity]. }
  destruct (accepted_is_nonempty_string v Hv) as (base64Png & -> & Hdata).
  cbn [ToString].
  destruct (build_effects base64Png uid (Get args (lit "filePath"))
              (record_call (TakeScreenshotByUid uid) (with_handle w)))
    as (c & w' & -> & [[-> Hc] | (absolutePath & Hfp & Hres & Hcalls & Hc)]).
  - destruct Hc as [[text ->] | [e ->]]; eexists _, _;
      (split; [reflexivity|]);
      exists [TakeScreenshotByUid uid; GetFirefox; ImportIndex];
      (split; [reflexivity|]); left;
      (split; [cbn [rev app]; eexists; reflexivity | reflexivity]).
  - destruct Hc as [(e & -> & Hfiles & Hwr) | (text & -> & Hfiles & Hwr)];
      eexists _, _; (split; [reflexivity|]);
      exists [WriteFile absolutePath (Buffer.from_base64 base64Png);
              TakeScreenshotByUid uid; GetFirefox; ImportIndex];
      (split; [exact Hcalls|]); right;
      exists index, firefox, base64Png, absolutePath;
      repeat (split; [assumption || reflexivity|]).
    + left. eexists. auto.
    + right. exists text. auto.
Qed.

End Effects.

Section Runs.

Variable limits : TokenLimits.
Variable handleUidError : Error -> js_string -> Error.
Variable env : Env.

(** A request without a non-empty [uid] string, or no request at all,
    ends the element handler with an error envelope before any call. *)
Lemma uid_rejected (args : JsValue) (w : World) :
  not_a_nonempty_string (Get args (lit "uid")) = true ->
  exists e,
    handleScreenshotByUid limits handleUidError env args w
    = (Normal (errorResponse e), w).
Proof.
  intros Huid.
  unfold handleScreenshotByUid, handleScreenshotByUid_try.
  unfold try_catch, mbind, M_bind.
  destruct args; cbn [destructure mret M_ret throw];
    try (rewrite Huid); eexists; reflexivity.
Qed.

(** The runs of the element handler, for every argument value. *)
Lemma uid_run_shape_any (args : JsValue) (w : World) :
  exists r w',
    handleScreenshotByUid limits handleUidError env args w = (Normal r, w')
    /\ run_shape env
         (TakeScreenshotByUid (ToString (Get args (lit "uid"))))
         (fun firefox =>
            takeScreenshotByUid firefox (ToString (Get args (lit "uid"))))
         (Get args (lit "filePath")) w r w'.
Proof.
  destruct (not_a_nonempty_string (Get args (lit "uid"))) eqn:Huid.
  - destruct (uid_rejected args w Huid) as [e He].
    eexists _, _. split; [exact He|].
    exists []. split; [reflexivity|]. left.
    split; [apply prefix_nil | reflexivity].
  - destruct (accepted_is_nonempty_string _ Huid) as (uid & Hget & Hne).
    rewrite Hget. cbn [ToString].
    now apply uid_run_shape.
Qed.

End Runs.

(* ===================================================================== *)
(** ** Further properties of the handlers *)
(* ===================================================================== *)

(** X6: a run of either handler makes its outside calls in one fixed
    order and each at most once: the import, the handle, one capture,
    one write.  Whatever the run logs is an initial part of that
    sequence, so nothing is retried and nothing is written before the
    capture. *)
Theorem handlers_call_order
    (limits : TokenLimits) (handleUidError : Error -> js_string -> Error)
    (env : Env) (args : JsValue) (w : World) :
  (exists r w' new,
     handleScreenshotPage limits env args w = (Normal r, w')
     /\ calls w' = new ++ calls w
     /\ exists path data,
          rev new `prefix_of`
            [ImportIndex; GetFirefox; TakeScreenshotPage;
             WriteFile path data])
  /\ (exists r w' new,
        handleScreenshotByUid limits handleUidError env args w
        = (Normal r, w')
        /\ calls w' = new ++ calls w
        /\ exists path data,
             rev new `prefix_of`
               [ImportIndex; GetFirefox;
                TakeScreenshotByUid (ToString (Get args (lit "uid")));
                WriteFile path data]).
Proof.
  split.
  - destruct (page_run_shape limits env args w)
      as (r & w' & Hrun & new & Hcalls & Hshape).
    exists r, w', new. split; [assumption|]. split; [assumption|].
    destruct Hshape as [[Hpre _] | (_ & _ & b & p & _ & _ & _ & _ & _ & _ & -> & _)].
    + exists [], []. etrans; [exact Hpre|].
      exists [WriteFile [] []]. reflexivity.
    + exists p, (Buffer.from_base64 b). reflexivity.
  - destruct (uid_run_shape_any limits handleUidError env args w)
      as (r & w' & Hrun & new & Hcalls & Hshape).
    exists r, w', new. split; [assumption|]. split; [assumption|].
    destruct Hshape as [[Hpre _] | (_ & _ & b & p & _ & _ & _ & _ & _ & _ & -> & _)].
    + exists [], []. etrans; [exact Hpre|].
      exists [WriteFile [] []]. reflexivity.
    + exists p, (Buffer.from_base64 b). reflexivity.
Qed.




(** On a full disk the page handler returns an error envelope, and the
    file that was there is empty: it was opened before the write
    failed. *)
Example failed_write_can_empty_the_file :
  fst (handleScreenshotPage Sample.limits Outage.disk_full
         (Sample.request JsUndefined (JsString (lit "/tmp/out.png")))
         {| files := {[ lit "/tmp/out.png" := [x01; x02] ]}; calls := [] |})
  = Normal (errorResponse
              (new_Error
                 (lit "Failed to save screenshot to /tmp/out.png: ENOSPC: no space left on device, write")))
  /\ files (snd (handleScreenshotPage Sample.limits Outage.disk_full
                   (Sample.request JsUndefined
                      (JsString (lit "/tmp/out.png")))
                   {| files := {[ lit "/tmp/out.png" := [x01; x02] ]};
                      calls := [] |}))
       !! lit "/tmp/out.png" = Some [].
Proof. split; vm_compute; reflexivity. Qed.

(** X8: the page handler reads nothing of its argument but [filePath]:
    two argument values with the same [filePath] give the same run.  In
    particular a missing argument, [null], or any value that is not an
    object is treated as the empty request. *)
Theorem page_handler_reads_only_filePath
    (limits : TokenLimits) (env : Env) (args args' : JsValue) (w : World) :
  Get args (lit "filePath") = Get args' (lit "filePath") ->
  handleScreenshotPage limits env args w
  = handleScreenshotPage limits env args' w.
Proof.
  intros Hfp. unfold handleScreenshotPage, handleScreenshotPage_try.
  unfold try_catch. unfold mbind at 1 5, M_bind at 1 5.
  rewrite !destructure_or_empty, !Get_or_else_empty, Hfp. reflexivity.
Qed.

Lemma page_handler_reads_only_filePath_witness :
  handleScreenshotPage Sample.limits Sample.env JsNull Sample.world0
  = handleScreenshotPage Sample.limits Sample.env
      (JsObject [(lit "uid", JsString (lit "e1"))]) Sample.world0
  /\ handleScreenshotPage Sample.limits Sample.env
       (JsNumber 5) Sample.world0
     = handleScreenshotPage Sample.limits Sample.env
         (JsObject []) Sample.world0.
Proof.
  split.
  - apply (page_handler_reads_only_filePath Sample.limits Sample.env
             JsNull (JsObject [(lit "uid", JsString (lit "e1"))])
             Sample.world0).
    reflexivity.
  - apply (page_handler_reads_only_filePath Sample.limits Sample.env
             (JsNumber 5) (JsObject []) Sample.world0).
    reflexivity.
Defined.

(** X9: the element handler reads nothing of a request but [uid] and
    [filePath]: two argument values that admit property access and agree
    on both give the same run, whatever else they hold. *)
Theorem uid_handler_reads_only_uid_and_filePath
    (limits : TokenLimits) (handleUidError : Error -> js_string -> Error)
    (env : Env) (args args' : JsValue) (w : World) :
  args <> JsUndefined -> args <> JsNull ->
  args' <> JsUndefined -> args' <> JsNull ->
  Get args (lit "uid") = Get args' (lit "uid") ->
  Get args (lit "filePath") = Get args' (lit "filePath") ->
  handleScreenshotByUid limits handleUidError env args w
  = handleScreenshotByUid limits handleUidError env args' w.
Proof.
  intros Hu Hn Hu' Hn' Huid Hfp.
  unfold handleScreenshotByUid, handleScreenshotByUid_try.
  unfold try_catch. unfold mbind at 1 4, M_bind at 1 4.
  assert (destructure "uid" args w = (Normal args, w)) as ->
    by (destruct args; congruence || reflexivity).
  assert (destructure "uid" args' w = (Normal args', w)) as ->
    by (destruct args'; congruence || reflexivity).
  rewrite Huid, Hfp. reflexivity.
Qed.

Lemma uid_handler_reads_only_uid_and_filePath_witness :
  handleScreenshotByUid Sample.limits Sample.handleUidError Sample.env
    (Sample.request (JsString (lit "e1")) JsUndefined) Sample.world0
  = handleScreenshotByUid Sample.limits Sample.handleUidError Sample.env
      (JsObject [(lit "format", JsString (lit "jpeg"));
                 (lit "uid", JsString (lit "e1"))]) Sample.world0.
Proof.
  apply (uid_handler_reads_only_uid_and_filePath
           Sample.limits Sample.handleUidError Sample.env
           (Sample.request (JsString (lit "e1")) JsUndefined)
           (JsObject [(lit "format", JsString (lit "jpeg"));
                      (lit "uid", JsString (lit "e1"))]) Sample.world0);
    try discriminate; vm_compute; reflexivity.
Defined.

(* ===================================================================== *)
(** ** The handlers from request to envelope *)
(* ===================================================================== *)

Section EndToEnd.

Variable limits : TokenLimits.
Variable handleUidError : Error -> js_string -> Error.
Variable env : Env.

(** The inline message of the builder in one formula. *)
Lemma build_inline
    (base64Png label : js_string) (filePath : JsValue) (w : World) :
  to_boolean filePath = false ->
  buildScreenshotResponse limits env base64Png label filePath w
  = (Normal (successResponse
               (camera ++ lit " " ++ label ++ lit " ("
                ++ Number_toString (sizeKB_of base64Png) ++ lit "KB)"
                ++ (if MAX_SCREENSHOT_CHARS limits <? length base64Png
                    then lit " [truncated]"
                    else if WARNING_THRESHOLD_CHARS limits <? length base64Png
                         then lit " [large]" else [])
                ++ LF
                ++ slice base64Png 0 (MAX_SCREENSHOT_CHARS limits))), w).
Proof.
  intros Hfp.
  destruct (N.ltb_spec (MAX_SCREENSHOT_CHARS limits) (length base64Png))
    as [Hmax|Hmax].
  - now apply build_truncated.
  - rewrite build_whole by assumption.
    rewrite (slice_from_0 base64Png), firstn_all2; [reflexivity|].
    unfold length in Hmax. lia.
Qed.

End EndToEnd.

(** X10: the page handler from request to envelope.  With a handle and a
    non-empty capture, a request without a file path gets the inline
    message labelled "page", after three calls and no write; a request
    whose file path resolves and can be written gets the "saved to"
    message, and the file at the resolved path holds the decoded
    capture. *)
Theorem page_screenshot_end_to_end
    (limits : TokenLimits) (env : Env) (args : JsValue)
    (index : IndexModule) (firefox : Firefox)
    (base64Png : js_string) (w : World) :
  import_index env = Normal index ->
  getFirefox index = Normal firefox ->
  takeScreenshotPage firefox = Normal (JsString base64Png) ->
  base64Png <> [] ->
  (to_boolean (Get args (lit "filePath")) = false ->
   handleScreenshotPage limits env args w
   = (Normal (successResponse
                (camera ++ lit " page ("
                 ++ Number_toString (sizeKB_of base64Png) ++ lit "KB)"
                 ++ (if MAX_SCREENSHOT_CHARS limits <? length base64Png
                     then lit " [truncated]"
                     else if WARNING_THRESHOLD_CHARS limits
                             <? length base64Png
                          then lit " [large]" else [])
                 ++ LF
                 ++ slice base64Png 0 (MAX_SCREENSHOT_CHARS limits))),
      record_call TakeScreenshotPage (with_handle w)))
  /\ (forall absolutePath,
        to_boolean (Get args (lit "filePath")) = true ->
        resolve env (Get args (lit "filePath")) = Normal absolutePath ->
        writeFile_refused env absolutePath (Buffer.from_base64 base64Png)
          = None ->
        handleScreenshotPage limits env args w
        = (Normal (successResponse
                     (camera ++ lit " page ("
                      ++ Number_toString (sizeKB_of base64Png)
                      ++ lit "KB) saved to " ++ absolutePath)),
           {| files := <[absolutePath := Buffer.from_base64 base64Png]>
                         (files w);
              calls := [WriteFile absolutePath
                          (Buffer.from_base64 base64Png);
                        TakeScreenshotPage; GetFirefox; ImportIndex]
                       ++ calls w |})).
Proof.
  intros Himp Hget Hcap Hne.
  rewrite (handleScreenshotPage_reaches_capture _ _ args index firefox)
    by assumption.
  rewrite Hcap, (nonempty_string_accepted base64Png Hne), Get_or_else_empty.
  cbn [ToString]. split.
  - intros Hfp. rewrite build_inline by assumption. reflexivity.
  - intros absolutePath Hfp Hres Hwr.
    rewrite (build_saved _ _ _ _ _ _ absolutePath) by assumption.
    reflexivity.
Qed.

Lemma page_screenshot_end_to_end_witness :
  handleScreenshotPage Sample.limits Sample.env JsUndefined Sample.world0
  = (Normal (successResponse
               (camera ++ lit " page (0KB) [truncated]" ++ LF
                ++ lit "iVBORw0K")),
     record_call TakeScreenshotPage (with_handle Sample.world0))
  /\ handleScreenshotPage Sample.limits Sample.env
       (Sample.request JsUndefined (JsString (lit "shots/page.png")))
       Sample.world0
     = (Normal (successResponse
                  (camera ++ lit " page (0KB) saved to /work/shots/page.png")),
        {| files := <[lit "/work/shots/page.png"
                      := [x89; x50; x4e; x47; x0d; x0a; x1a; x0a]]> ∅;
           calls := [WriteFile (lit "/work/shots/page.png")
                       [x89; x50; x4e; x47; x0d; x0a; x1a; x0a];
                     TakeScreenshotPage; GetFirefox; ImportIndex] |}).
Proof.
  split.
  - apply (page_screenshot_end_to_end Sample.limits Sample.env JsUndefined
             {| getFirefox := Normal Sample.firefox |} Sample.firefox
             Sample.png Sample.world0);
      try reflexivity. discriminate.
  - apply (page_screenshot_end_to_end Sample.limits Sample.env
             (Sample.request JsUndefined (JsString (lit "shots/page.png")))
             {| getFirefox := Normal Sample.firefox |} Sample.firefox
             Sample.png Sample.world0);
      try reflexivity. discriminate.
Defined.

(** X11: the element handler from request to envelope.  With a non-empty
    [uid], a handle and a non-empty capture, the message is the
    builder's with the [uid] itself as label: inline after three calls
    and no write, or "saved to" with the decoded capture in the file at
    the resolved path.  The error translation plays no part in it. *)
Theorem element_screenshot_end_to_end
    (limits : TokenLimits) (handleUidError : Error -> js_string -> Error)
    (env : Env) (args : JsValue) (uid : js_string)
    (index : IndexModule) (firefox : Firefox)
    (base64Png : js_string) (w : World) :
  Get args (lit "uid") = JsString uid -> uid <> [] ->
  import_index env = Normal index ->
  getFirefox index = Normal firefox ->
  takeScreenshotByUid firefox uid = Normal (JsString base64Png) ->
  base64Png <> [] ->
  (to_boolean (Get args (lit "filePath")) = false ->
   handleScreenshotByUid limits handleUidError env args w
   = (Normal (successResponse
                (camera ++ lit " " ++ uid ++ lit " ("
                 ++ Number_toString (sizeKB_of base64Png) ++ lit "KB)"
                 ++ (if MAX_SCREENSHOT_CHARS limits <? length base64Png
                     then lit " [truncated]"
                     else if WARNING_THRESHOLD_CHARS limits
                             <? length base64Png
                          then lit " [large]" else [])
                 ++ LF
                 ++ slice base64Png 0 (MAX_SCREENSHOT_CHARS limits))),
      record_call (TakeScreenshotByUid uid) (with_handle w)))
  /\ (forall absolutePath,
        to_boolean (Get args (lit "filePath")) = true ->
        resolve env (Get args (lit "filePath")) = Normal absolutePath ->
        writeFile_refused env absolutePath (Buffer.from_base64 base64Png)
          = None ->
        handleScreenshotByUid limits handleUidError env args w
        = (Normal (successResponse
                     (camera ++ lit " " ++ uid ++ lit " ("
                      ++ Number_toString (sizeKB_of base64Png)
                      ++ lit "KB) saved to " ++ absolutePath)),
           {| files := <[absolutePath := Buffer.from_base64 base64Png]>
                         (files w);
              calls := [WriteFile absolutePath
                          (Buffer.from_base64 base64Png);
                        TakeScreenshotByUid uid; GetFirefox; ImportIndex]
                       ++ calls w |})).
Proof.
  intros Huid Hne Himp Hget Hcap Hdata.
  rewrite (handleScreenshotByUid_reaches_capture _ _ _ args uid index firefox)
    by assumption.
  unfold handleScreenshotByUid_capture, try_catch, mbind, M_bind, perform.
  rewrite Hcap, (nonempty_string_accepted base64Png Hdata).
  cbn [ToString]. split.
  - intros Hfp. rewrite build_inline by assumption. reflexivity.
  - intros absolutePath Hfp Hres Hwr.
    rewrite (build_saved _ _ _ _ _ _ absolutePath) by assumption.
    reflexivity.
Qed.

Lemma element_screenshot_end_to_end_witness :
  handleScreenshotByUid Sample.limits Sample.handleUidError Sample.env
    (Sample.request (JsString (lit "e1")) (JsString [])) Sample.world0
  = (Normal (successResponse
               (camera ++ lit " e1 (0KB) [truncated]" ++ LF
                ++ lit "iVBORw0K")),
     record_call (TakeScreenshotByUid (lit "e1"))
       (with_handle Sample.world0))
  /\ handleScreenshotByUid Sample.limits Sample.handleUidError Sample.env
       (Sample.request (JsString (lit "e1")) (JsString (lit "/tmp/e1.png")))
       Sample.world0
     = (Normal (successResponse
                  (camera ++ lit " e1 (0KB) saved to /tmp/e1.png")),
        {| files := <[lit "/tmp/e1.png"
                      := [x89; x50; x4e; x47; x0d; x0a; x1a; x0a]]> ∅;
           calls := [WriteFile (lit "/tmp/e1.png")
                       [x89; x50; x4e; x47; x0d; x0a; x1a; x0a];
                     TakeScreenshotByUid (lit "e1");
                     GetFirefox; ImportIndex] |}).
Proof.
  split.
  - apply (element_screenshot_end_to_end
             Sample.limits Sample.handleUidError Sample.env
             (Sample.request (JsString (lit "e1")) (JsString []))
             (lit "e1")
             {| getFirefox := Normal Sample.firefox |} Sample.firefox
             Sample.png Sample.world0);
      try reflexivity; discriminate.
  - apply (element_screenshot_end_to_end
             Sample.limits Sample.handleUidError Sample.env
             (Sample.request (JsString (lit "e1"))
                (JsString (lit "/tmp/e1.png")))
             (lit "e1")
             {| getFirefox := Normal Sample.firefox |} Sample.firefox
             Sample.png Sample.world0);
      try reflexivity; discriminate.
Defined.

(* ===================================================================== *)
(** ** Truncated data and the decoder *)
(* ===================================================================== *)

Section TruncatedData.

Import Buffer.

(** Induction over a list four elements at a time, as the decoder
    consumes sextets. *)
Lemma list_ind4 {A : Type} (P : list A -> Prop) :
  P [] -> (forall a, P [a]) -> (forall a b, P [a; b]) ->
  (forall a b c, P [a; b; c]) ->
  (forall a b c d l, P l -> P (a :: b :: c :: d :: l)) -> forall l, P l.
Proof.
  intros H0 H1 H2 H3 H4.
  fix IH 1. intros [|a [|b [|c [|d l]]]];
    [apply H0 | apply H1 | apply H2 | apply H3 | apply H4, IH].
Qed.

(** The sextets of the first [n] code units come first among the
    sextets of the whole string. *)
Lemma sextets_firstn_prefix (s : js_string) (n : nat) :
  sextets (firstn n s) `prefix_of` sextets s.
Proof.
  revert n. induction s as [|c s IH]; intros [|n]; cbn [firstn sextets];
    try apply prefix_nil.
  destruct (unbase64 c).
  - apply prefix_cons, IH.
  - destruct (c =? pad); [apply prefix_nil | apply IH].
Qed.

(** More sextets only add bytes: those already written stay. *)
Lemma bytes_of_sextets_prefix (l k : list N) :
  bytes_of_sextets l `prefix_of` bytes_of_sextets (l ++ k).
Proof.
  induction l as [|a|a b|a b c|a b c d l IH] using list_ind4.
  - apply prefix_nil.
  - apply prefix_nil.
  - destruct k as [|c [|d k]]; cbn [app bytes_of_sextets];
      eexists; reflexivity.
  - destruct k as [|d k]; cbn [app bytes_of_sextets];
      eexists; reflexivity.
  - cbn [app bytes_of_sextets]. do 3 apply prefix_cons. exact IH.
Qed.

(** Decoding the first [n] code units of a string gives the first bytes
    of decoding the whole, wherever the cut falls in a group of four. *)
Lemma from_base64_firstn_prefix (s : js_string) (n : nat) :
  from_base64 (firstn n s) `prefix_of` from_base64 s.
Proof.
  unfold from_base64.
  destruct (sextets_firstn_prefix s n) as [k ->].
  apply bytes_of_sextets_prefix.
Qed.

(** The encoder gives four code units for every three bytes, the last
    group padded. *)
Lemma length_toString_base64 (buf : list byte) :
  List.length (toString_base64 buf)
  = (4 * ((List.length buf + 2) / 3))%nat.
Proof.
  induction buf as [|a|a b|a b c rest IH] using list_ind3;
    try reflexivity.
  cbn [toString_base64 List.length]. rewrite IH.
  replace (S (S (S (List.length rest))) + 2)%nat
    with (1 * 3 + (List.length rest + 2))%nat by lia.
  rewrite Nat.div_add_l by lia. lia.
Qed.

End TruncatedData.

(** X12: the data of a "[truncated]" message still decodes, and to the
    first bytes of what the whole capture decodes to (what the
    save-to-file branch would have written for it), even when the cut
    at [MAX_SCREENSHOT_CHARS] falls inside a group of four characters. *)
Theorem truncated_data_decodes_to_prefix
    (limits : TokenLimits) (env : Env)
    (base64Png label : js_string) (filePath : JsValue) (w : World) :
  to_boolean filePath = false ->
  MAX_SCREENSHOT_CHARS limits < length base64Png ->
  exists data,
    buildScreenshotResponse limits env base64Png label filePath w
    = (Normal (successResponse
                 (camera ++ lit " " ++ label ++ lit " ("
                  ++ Number_toString (sizeKB_of base64Png)
                  ++ lit "KB) [truncated]" ++ LF ++ data)), w)
    /\ Buffer.from_base64 data `prefix_of` Buffer.from_base64 base64Png.
Proof.
  intros Hfp Hmax.
  exists (slice base64Png 0 (MAX_SCREENSHOT_CHARS limits)). split.
  - now apply build_truncated.
  - rewrite slice_from_0. apply from_base64_firstn_prefix.
Qed.

Lemma truncated_data_decodes_to_prefix_witness :
  exists data,
    buildScreenshotResponse
      {| MAX_SCREENSHOT_CHARS := 7; WARNING_THRESHOLD_CHARS := 4 |}
      Sample.env Sample.png (lit "page") JsUndefined Sample.world0
    = (Normal (successResponse
                 (camera ++ lit " page (0KB) [truncated]" ++ LF ++ data)),
       Sample.world0)
    /\ Buffer.from_base64 data
       `prefix_of` [x89; x50; x4e; x47; x0d; x0a; x1a; x0a].
Proof.
  apply (truncated_data_decodes_to_prefix
           {| MAX_SCREENSHOT_CHARS := 7; WARNING_THRESHOLD_CHARS := 4 |}
           Sample.env Sample.png (lit "page") JsUndefined Sample.world0);
    reflexivity.
Defined.

(** X13: the size in a "saved to" message is that of the base64 text,
    not of the file: when the capture encodes [n] bytes, the file
    written has [n] bytes and the message announces
    [Math.round(4 * ceil(n / 3) / 1024)] kilobytes. *)
Theorem saved_size_is_of_the_text
    (limits : TokenLimits) (env : Env) (buf : list byte)
    (label : js_string) (filePath : JsValue)
    (absolutePath : js_string) (w : World) :
  to_boolean filePath = true ->
  resolve env filePath = Normal absolutePath ->
  writeFile_refused env absolutePath buf = None ->
  exists w',
    buildScreenshotResponse limits env (Buffer.toString_base64 buf)
      label filePath w
    = (Normal (successResponse
                 (camera ++ lit " " ++ label ++ lit " ("
                  ++ Number_toString
                       ((4 * ((Z.of_nat (List.length buf) + 2) / 3) + 512)
                        / 1024)%Z
                  ++ lit "KB) saved to " ++ absolutePath)), w')
    /\ files w' !! absolutePath = Some buf.
Proof.
  intros Hfp Hres Hwr.
  pose proof (from_toString_base64 buf) as Hdec.
  assert (writeFile_refused env absolutePath
            (Buffer.from_base64 (Buffer.toString_base64 buf)) = None)
    as Hwr' by now rewrite Hdec.
  eexists. split.
  - rewrite (build_saved _ _ _ _ _ _ absolutePath) by assumption.
    rewrite sizeKB_of_div. unfold length.
    rewrite length_toString_base64, nat_N_Z, Nat2Z.inj_mul,
      Nat2Z.inj_div, Nat2Z.inj_add.
    reflexivity.
  - cbn [files]. rewrite Hdec. apply lookup_insert_eq.
Qed.

Lemma saved_size_is_of_the_text_witness :
  exists w',
    buildScreenshotResponse Sample.limits Sample.env
      (Buffer.toString_base64 (repeat x00 3072))
      (lit "page") (JsString (lit "/tmp/out.png")) Sample.world0
    = (Normal (successResponse
                 (camera ++ lit " page (4KB) saved to /tmp/out.png")), w')
    /\ files w' !! lit "/tmp/out.png" = Some (repeat x00 3072).
Proof.
  apply (saved_size_is_of_the_text Sample.limits Sample.env
           (repeat x00 3072) (lit "page") (JsString (lit "/tmp/out.png"))
           (lit "/tmp/out.png") Sample.world0);
    reflexivity.
Defined.

(* ===================================================================== *)
(** ** Failures before and at the capture, in sample environments *)
(* ===================================================================== *)

Lemma handle_not_obtained_witness :
  (exists w',
     handleScreenshotPage Sample.limits Outage.no_handle
       (Sample.request (JsString (lit "e1")) JsUndefined) Sample.world0
     = (Normal (errorResponse Outage.connection_lost), w'))
  /\ (exists w',
        handleScreenshotByUid Sample.limits Sample.handleUidError
          Outage.no_handle
          (Sample.request (JsString (lit "e1")) JsUndefined) Sample.world0
        = (Normal (errorResponse Outage.connection_lost), w')).
Proof.
  destruct (handle_not_obtained Sample.limits Sample.handleUidError
              Outage.no_handle
              (Sample.request (JsString (lit "e1")) JsUndefined)
              (lit "e1") Outage.connection_lost Sample.world0)
    as [Hpage Huid].
  - right. eexists. split; reflexivity.
  - split; [exact Hpage|]. apply Huid; [reflexivity | discriminate].
Defined.

Lemma page_capture_failure_witness :
  handleScreenshotPage Sample.limits
    (Sample.env_of Outage.crashed_firefox) JsUndefined Sample.world0
  = (Normal (errorResponse Outage.connection_lost),
     record_call TakeScreenshotPage (with_handle Sample.world0)).
Proof.
  apply (page_capture_failure Sample.limits
           (Sample.env_of Outage.crashed_firefox) JsUndefined
           {| getFirefox := Normal Outage.crashed_firefox |}
           Outage.crashed_firefox Outage.connection_lost Sample.world0);
    reflexivity.
Defined.

Lemma handleScreenshotByUid_without_args_witness :
  handleScreenshotByUid Sample.limits Sample.handleUidError Sample.env
    JsUndefined Sample.world0
  = (Normal (errorResponse
               (new_Error (lit "Cannot destructure property 'uid' of 'args' as it is undefined."))),
     Sample.world0).
Proof.
  apply (handleScreenshotByUid_without_args
           Sample.limits Sample.handleUidError Sample.env
           JsUndefined Sample.world0).
  left. reflexivity.
Defined.
